(** * Context-menu contributors of obsidian-map-view ([src/menus.ts])

    A shallow embedding of the menu contributors of [src/menus.ts] and
    of the fragment of the JavaScript semantics they rely on
    (string search and replacement, number-to-string conversion,
    truthiness, exceptions on property reads of [null], promises and
    [await]), followed by the properties proved about them. *)

From Stdlib Require Import Bool List ZArith Lia Ascii String.
From Stdlib Require Import DecimalPos DecimalString.
Import ListNotations.
Open Scope list_scope.
Open Scope string_scope.

(* ===================================================================== *)
(** ** JavaScript values used by [menus.ts] *)
(* ===================================================================== *)

Module JS.

(** *** Strings

    A JavaScript string is a sequence of UTF-16 code units; here it is a
    [string] of bytes.  The only characters [menus.ts] ever searches for
    are ASCII, and an ASCII token occurs at the same places in both
    encodings, so nothing below depends on the difference. *)

(** The character [U+0022] and the line feed. *)
Definition dquote : string := String "034" EmptyString.
Definition LF : string := String "010" EmptyString.

(** [StringIndexOf(string, searchValue, 0)]: the least index at which
    [searchValue] occurs in [s]. *)
Fixpoint indexOf (searchValue s : string) : option nat :=
  if prefix searchValue s then Some 0
  else match s with
       | EmptyString => None
       | String _ s' => option_map S (indexOf searchValue s')
       end.

(** The substring of [s] from [from] (inclusive) to [to] (exclusive). *)
Definition substringFromTo (s : string) (from to : nat) : string :=
  substring from (to - from) s.

(** [GetSubstitution] for a string pattern: there are no captures, so
    [$n] and [$<] are literal; [$$], [$&], [$`] and [$'] expand. *)
Fixpoint GetSubstitution (matched preceding following template : string)
  : string :=
  match template with
  | EmptyString => EmptyString
  | String c rest =>
      if (c =? "$")%char then
        match rest with
        | EmptyString => String c EmptyString
        | String d r =>
            if (d =? "$")%char then
              String "$" (GetSubstitution matched preceding following r)
            else if (d =? "&")%char then
              matched ++ GetSubstitution matched preceding following r
            else if (d =? "`")%char then
              preceding ++ GetSubstitution matched preceding following r
            else if (d =? "'")%char then
              following ++ GetSubstitution matched preceding following r
            else String c (GetSubstitution matched preceding following rest)
        end
      else String c (GetSubstitution matched preceding following rest)
  end.

(** [String.prototype.replace(searchValue, replaceValue)] with both
    arguments strings: only the first match is replaced. *)
Definition replace (s searchString replaceValue : string) : string :=
  match indexOf searchString s with
  | None => s
  | Some pos =>
      let preceding := substringFromTo s 0 pos in
      let following :=
        substringFromTo s (pos + length searchString) (length s) in
      let replacement :=
        GetSubstitution searchString preceding following replaceValue in
      preceding ++ replacement ++ following
  end.

(** Truthiness of a possibly missing string property: [undefined] and
    the empty string are falsy. *)
Definition truthy (v : option string) : bool :=
  match v with
  | None => false
  | Some EmptyString => false
  | Some (String _ _) => true
  end.

(** [ToString] of a possibly missing string. *)
Definition stringOf (v : option string) : string :=
  match v with
  | Some s => s
  | None => "undefined"
  end.

(** *** Numbers

    A [number] is [NaN], an infinity, or a finite double.  A finite
    double is written by the decimal [m * 10 ^ e] that
    [Number::toString] prints for it (the shortest decimal that reads
    back as the same double), with its sign; [m = 0] is a zero.  Which
    decimals arise from doubles plays no role below: every statement
    holds for all of them. *)
Inductive number : Type :=
| NaN
| Infinity (negative : bool)
| Finite (negative : bool) (m : N) (e : Z).

Definition ofZ (z : Z) : number := Finite (z <? 0)%Z (Z.abs_N z) 0.
Definition ofNat (n : nat) : number := Finite false (N.of_nat n) 0.

(** Decimal digits of a positive integer, most significant first. *)
Definition digitsOf (p : positive) : string :=
  NilEmpty.string_of_uint (Pos.to_uint p).

Definition decimalOfN (n : N) : string :=
  NilEmpty.string_of_uint (N.to_uint n).

Fixpoint stripTrailingZeros (d : string) : string :=
  match d with
  | EmptyString => EmptyString
  | String c d' =>
      match stripTrailingZeros d' with
      | EmptyString => if (c =? "0")%char then EmptyString
                       else String c EmptyString
      | r => String c r
      end
  end.

Fixpoint zeros (n : nat) : string :=
  match n with
  | O => EmptyString
  | S n' => String "0" (zeros n')
  end.

(** [Number::toString(x, 10)] for [x = m * 10 ^ e > 0].  With [s] the
    digits of [m] without trailing zeros, [k] their number and
    [n = e + (number of digits of m)], the value is [s * 10 ^ (n - k)]
    and [k] is as small as possible. *)
Definition toStringPositive (m : positive) (e : Z) : string :=
  let all := digitsOf m in
  let s := stripTrailingZeros all in
  let k := Z.of_nat (length s) in
  let n := (e + Z.of_nat (length all))%Z in
  if ((k <=? n) && (n <=? 21))%Z then
    s ++ zeros (Z.to_nat (n - k))
  else if ((0 <? n) && (n <=? 21))%Z then
    substringFromTo s 0 (Z.to_nat n) ++ "."
      ++ substringFromTo s (Z.to_nat n) (length s)
  else if ((-6 <? n) && (n <=? 0))%Z then
    "0." ++ zeros (Z.to_nat (- n)) ++ s
  else
    let c := if (n - 1 <? 0)%Z then "-" else "+" in
    let ex := decimalOfN (Z.abs_N (n - 1)) in
    if (k =? 1)%Z then s ++ "e" ++ c ++ ex
    else substringFromTo s 0 1 ++ "."
           ++ substringFromTo s 1 (length s) ++ "e" ++ c ++ ex.

(** [Number.prototype.toString()], also the conversion applied to a
    number inside a template literal. *)
Definition toString (x : number) : string :=
  match x with
  | NaN => "NaN"
  | Infinity false => "Infinity"
  | Infinity true => "-Infinity"
  | Finite _ N0 _ => "0"
  | Finite false (Npos m) e => toStringPositive m e
  | Finite true (Npos m) e => "-" ++ toStringPositive m e
  end.

(** Comparison of numbers: undefined when a [NaN] is involved, the
    order of the reals otherwise. *)
Definition scaled (negative : bool) (m : N) (d : Z) : Z :=
  ((if negative then -1 else 1) * Z.of_N m * 10 ^ d)%Z.

Definition compareNumbers (x y : number) : option comparison :=
  match x, y with
  | NaN, _ | _, NaN => None
  | Infinity a, Infinity b =>
      Some (match a, b with
            | true, false => Lt
            | false, true => Gt
            | _, _ => Eq
            end)
  | Infinity a, Finite _ _ _ => Some (if a then Lt else Gt)
  | Finite _ _ _, Infinity b => Some (if b then Gt else Lt)
  | Finite s1 m1 e1, Finite s2 m2 e2 =>
      let e0 := Z.min e1 e2 in
      Some (Z.compare (scaled s1 m1 (e1 - e0)) (scaled s2 m2 (e2 - e0)))
  end.

(** [x > y], [x >= y] and [x == y] on numbers. *)
Definition gt (x y : number) : bool :=
  match compareNumbers x y with Some Gt => true | _ => false end.
Definition ge (x y : number) : bool :=
  match compareNumbers x y with Some Gt | Some Eq => true | _ => false end.
Definition equals (x y : number) : bool :=
  match compareNumbers x y with Some Eq => true | _ => false end.

(** *** Exceptions and promises *)

Inductive Error : Type :=
| TypeError (message : string)
| Rejection (reason : string).

Inductive Result (A : Type) : Type :=
| Ok (a : A)
| Throw (e : Error).
Arguments Ok {A} a.
Arguments Throw {A} e.

Definition bindResult {A B} (r : Result A) (k : A -> Result B) : Result B :=
  match r with
  | Ok a => k a
  | Throw e => Throw e
  end.

(** A promise, given by the way it settles. *)
Inductive Promise (A : Type) : Type :=
| Fulfilled (value : A)
| Rejected (e : Error).
Arguments Fulfilled {A} value.
Arguments Rejected {A} e.

End JS.

Import JS.

(* ===================================================================== *)
(** ** The host application, as [menus.ts] sees it *)
(* ===================================================================== *)

Module Obsidian.

(** [leaflet.LatLng]. *)
Record LatLng : Type := { lat : number; lng : number }.

(** Only [path] of a file is read.  [TFile] extends [TAbstractFile]
    without changing that. *)
Record TAbstractFile : Type := { path : string }.
Definition TFile : Type := TAbstractFile.

Inductive App : Type := TheApp.

Record MouseEvent : Type := { ctrlKey : bool; shiftKey : bool }.

(** The editor, by what the contributors ask of it. *)
Record Editor : Type := { getSelection : string; cursorLine : string }.

(** [settings.OpenInSettings] and the part of [settings.PluginSettings]
    that is read.  The settings are loaded from stored data, so a field
    of a rule may be missing. *)
Record OpenInSettings : Type :=
  { name : option string; urlPattern : option string }.

Record PluginSettings : Type :=
  { openIn : list OpenInSettings;
    newNoteNameFormat : string;
    newNotePath : string;
    newNoteTemplate : string }.

Record MapState : Type := { query : string }.

Record ParsedLocation : Type := { location : LatLng }.

(** What [UrlConvertor.parseLocationFromUrl] may return. *)
Inductive ParseReturn : Type :=
| ReturnsNull
| ReturnsLocation (parsed : ParsedLocation)
| ReturnsPromise (p : Promise (option ParsedLocation)).

Inductive NewNoteType : Type := singleLocation | multiLocation.

(** [utils.handleNewNoteCursorMarker], passed by reference. *)
Inductive EditorAction : Type := handleNewNoteCursorMarker.

(** Collaborators handed to the contributors. *)
Record MapViewPlugin : Type :=
  { openMapWithLocation :
      LatLng -> bool -> TAbstractFile -> number -> bool -> Promise unit;
    openMapWithState : MapState -> bool -> bool -> Promise unit }.

Record LocationSuggest : Type :=
  { selectionToLink : Editor -> Promise unit }.

Record UrlConvertor : Type :=
  { hasMatchInLine : Editor -> bool;
    parseLocationFromUrl : string -> ParseReturn }.

Inductive MapContainer : Type := TheMapContainer.

(** Module-level bindings: [navigator.clipboard] and [src/utils]. *)
Record Host : Type :=
  { clipboard_readText : Promise string;
    formatWithTemplates : string -> string;
    newNote :
      App -> NewNoteType -> string -> string -> string -> string ->
      Promise TFile }.

(** Calls that leave [menus.ts], in the order they are made, together
    with the points where a handler suspends on a promise and where it
    is resumed with the promise's value. *)
Inductive Event : Type :=
| EOpenMapWithLocation (geolocation : LatLng) (newPane : bool)
    (file : TAbstractFile) (editorLine : number) (shift : bool)
| EOpenMapWithState (state : MapState) (newPane focus : bool)
| EOpen (url : string)
| ESelectionToLink (editor : Editor)
| EConvertUrlAtCursorToGeolocation (editor : Editor)
| EClipboardReadText
| EClipboardWriteText (text : string)
| EParseLocationFromUrl (text : string)
| EInsertLocationToEditor (geolocation : LatLng) (editor : Editor)
| EFormatWithTemplates (format : string)
| ENewNote (app : App) (kind : NewNoteType)
    (directory fileName locationString template : string)
| EGoToFile (file : TFile) (newPane : bool) (action : EditorAction)
| EAwait
| EResume.

(** A run of a click handler: the calls it made and how it ended. *)
Definition Async (A : Type) : Type := (list Event * Result A)%type.

Definition ret {A} (a : A) : Async A := ([], Ok a).

Definition bind {A B} (m : Async A) (k : A -> Async B) : Async B :=
  match m with
  | (t, Ok a) => let (t', r) := k a in ((t ++ t')%list, r)
  | (t, Throw e) => (t, Throw e)
  end.

(** A call to a collaborator, with what it returns. *)
Definition call {A} (ev : Event) (result : A) : Async A := ([ev], Ok result).

(** [await p]: suspend; resume with the value, or throw the reason. *)
Definition await {A} (p : Promise A) : Async A :=
  match p with
  | Fulfilled v => ([EAwait; EResume], Ok v)
  | Rejected e => ([EAwait], Throw e)
  end.

Definition Handler : Type := MouseEvent -> Async unit.

(** [MenuItem] and [Menu]: a menu is the list of its items, in the
    order they were added. *)
Record MenuItem : Type :=
  { title : string;
    icon : string;
    section : string;
    callback : option Handler }.

Definition Menu : Type := list MenuItem.

Definition newMenuItem : MenuItem :=
  {| title := EmptyString; icon := EmptyString; section := EmptyString;
     callback := None |}.

Definition setTitle (item : MenuItem) (t : string) : MenuItem :=
  {| title := t; icon := icon item; section := section item;
     callback := callback item |}.
Definition setIcon (item : MenuItem) (i : string) : MenuItem :=
  {| title := title item; icon := i; section := section item;
     callback := callback item |}.
Definition setSection (item : MenuItem) (s : string) : MenuItem :=
  {| title := title item; icon := icon item; section := s;
     callback := callback item |}.
Definition onClick (item : MenuItem) (h : Handler) : MenuItem :=
  {| title := title item; icon := icon item; section := section item;
     callback := Some h |}.

(** [menu.addItem(cb)] creates an item, runs [cb] on it and appends
    it.  A [cb] declared [async] that contains no [await] runs to its
    end inside this call all the same. *)
Definition addItem (menu : Menu) (cb : MenuItem -> MenuItem) : Menu :=
  (menu ++ [cb newMenuItem])%list.

(** Clicking an item runs its handler. *)
Definition click (item : MenuItem) (evt : MouseEvent) : Async unit :=
  match callback item with
  | Some h => h evt
  | None => ret tt
  end.

End Obsidian.

Import Obsidian.

Notation "x <- m ;; k" := (bind m (fun x => k))
  (at level 61, m at next level, right associativity).
Notation "m ;;; k" := (bind m (fun _ => k))
  (at level 61, right associativity).
Notation "'let!' x ':=' r 'in' k" := (bindResult r (fun x => k))
  (at level 10, x name, r at level 100, k at level 200).

(* ===================================================================== *)
(** ** [src/menus.ts] *)
(* ===================================================================== *)

Module Menus.

Section WithHost.

Variable host : Host.

(** Reading [geolocation.lat] or [geolocation.lng]: a [TypeError] when
    [geolocation] is [null] or [undefined]. *)
Definition getLat (geolocation : option LatLng) : Result number :=
  match geolocation with
  | Some g => Ok (lat g)
  | None => Throw (TypeError "Cannot read properties of null (reading 'lat')")
  end.

Definition getLng (geolocation : option LatLng) : Result number :=
  match geolocation with
  | Some g => Ok (lng g)
  | None => Throw (TypeError "Cannot read properties of null (reading 'lng')")
  end.

Definition addShowOnMap (menu : Menu) (geolocation : option LatLng)
    (file : TAbstractFile) (editorLine : number) (plugin : MapViewPlugin)
  : Result Menu :=
  match geolocation with
  | Some g =>
      Ok (addItem menu (fun item =>
        let item := setTitle item "Show on map" in
        let item := setSection item "mapview" in
        let item := setIcon item "globe" in
        onClick item (fun evt =>
          p <- call (EOpenMapWithLocation g (ctrlKey evt) file editorLine
                       (shiftKey evt))
                    (openMapWithLocation plugin g (ctrlKey evt) file
                       editorLine (shiftKey evt)) ;;
          await p)))
  | None => Ok menu
  end.

(** The body of the [for] loop of [populateOpenInItems], run over the
    rules that are left. *)
Fixpoint populateOpenInItems_loop (rules : list OpenInSettings) (menu : Menu)
    (location : option LatLng) : Result Menu :=
  match rules with
  | [] => Ok menu
  | setting :: rest =>
      if negb (truthy (name setting)) || negb (truthy (urlPattern setting))
      then populateOpenInItems_loop rest menu location
      else
        let! x := getLat location in
        let step1 := replace (stringOf (urlPattern setting)) "{x}" (toString x) in
        let! y := getLng location in
        let fullUrl := replace step1 "{y}" (toString y) in
        let menu := addItem menu (fun item =>
          let item := setTitle item ("Open in " ++ stringOf (name setting)) in
          let item := setIcon item "map-pin" in
          let item := setSection item "mapview" in
          onClick item (fun _ev => call (EOpen fullUrl) tt)) in
        populateOpenInItems_loop rest menu location
  end.

Definition populateOpenInItems (menu : Menu) (location : option LatLng)
    (settings : PluginSettings) : Result Menu :=
  populateOpenInItems_loop (openIn settings) menu location.

Definition addOpenWith (menu : Menu) (geolocation : option LatLng)
    (settings : PluginSettings) : Result Menu :=
  match geolocation with
  | Some g =>
      let menu := addItem menu (fun item =>
        let item := setTitle item "Open with default app" in
        let item := setIcon item "map-pin" in
        let item := setSection item "mapview" in
        onClick item (fun _ev =>
          call (EOpen ("geo:" ++ toString (lat g) ++ "," ++ toString (lng g)))
               tt)) in
      populateOpenInItems menu geolocation settings
  | None => Ok menu
  end.

Definition addUrlConversionItems (menu : Menu) (editor : Editor)
    (suggestor : LocationSuggest) (urlConvertor : UrlConvertor)
  : Result Menu :=
  let menu :=
    if truthy (Some (getSelection editor)) then
      addItem menu (fun item =>
        let item := setTitle item "Convert to geolocation (geosearch)" in
        let item := setIcon item "search" in
        let item := setSection item "mapview" in
        onClick item (fun _ =>
          p <- call (ESelectionToLink editor)
                    (selectionToLink suggestor editor) ;;
          await p))
    else menu in
  let menu :=
    if hasMatchInLine urlConvertor editor then
      addItem menu (fun item =>
        let item := setTitle item "Convert to geolocation" in
        let item := setIcon item "search" in
        let item := setSection item "mapview" in
        onClick item (fun _ =>
          call (EConvertUrlAtCursorToGeolocation editor) tt))
    else menu in
  Ok (addItem menu (fun item =>
    let item := setTitle item "Paste as geolocation" in
    let item := setSection item "mapview" in
    let item := setIcon item "clipboard-x" in
    onClick item (fun _ =>
      p <- call EClipboardReadText (clipboard_readText host) ;;
      clipboard <- await p ;;
      clipboardLocation <-
        call (EParseLocationFromUrl clipboard)
             (parseLocationFromUrl urlConvertor clipboard) ;;
      clipboardLocation <-
        match clipboardLocation with
        | ReturnsPromise q => await q
        | ReturnsLocation parsed => ret (Some parsed)
        | ReturnsNull => ret None
        end ;;
      match clipboardLocation with
      | Some parsed =>
          call (EInsertLocationToEditor (location parsed) editor) tt
      | None => ret tt
      end))).

(** The click handler shared, up to the note type, by the two items of
    [addNewNoteItems]. *)
Definition newNoteHandler (kind : NewNoteType) (locationString : string)
    (mapContainer : MapContainer) (settings : PluginSettings) (app : App)
  : Handler :=
  fun ev =>
    newFileName <-
      call (EFormatWithTemplates (newNoteNameFormat settings))
           (formatWithTemplates host (newNoteNameFormat settings)) ;;
    p <- call (ENewNote app kind (newNotePath settings) newFileName
                 locationString (newNoteTemplate settings))
              (newNote host app kind (newNotePath settings) newFileName
                 locationString (newNoteTemplate settings)) ;;
    file <- await p ;;
    call (EGoToFile file (ctrlKey ev) handleNewNoteCursorMarker) tt.

Definition addNewNoteItems (menu : Menu) (geolocation : option LatLng)
    (mapContainer : MapContainer) (settings : PluginSettings) (app : App)
  : Result Menu :=
  let! x := getLat geolocation in
  let! y := getLng geolocation in
  let locationString := toString x ++ "," ++ toString y in
  let menu := addItem menu (fun item =>
    let item := setTitle item "New note here (inline)" in
    let item := setIcon item "edit" in
    let item := setSection item "new" in
    onClick item
      (newNoteHandler multiLocation locationString mapContainer settings app))
  in
  Ok (addItem menu (fun item =>
    let item := setTitle item "New note here (front matter)" in
    let item := setIcon item "edit" in
    let item := setSection item "new" in
    onClick item
      (newNoteHandler singleLocation locationString mapContainer settings
         app))).

Definition addCopyGeolocationItems (menu : Menu)
    (geolocation : option LatLng) : Result Menu :=
  let! x := getLat geolocation in
  let! y := getLng geolocation in
  let locationString := toString x ++ "," ++ toString y in
  let menu := addItem menu (fun item =>
    let item := setTitle item "Copy geolocation" in
    let item := setIcon item "copy" in
    let item := setSection item "copy" in
    onClick item (fun _ev =>
      call (EClipboardWriteText ("[](geo:" ++ locationString ++ ")")) tt))
  in
  Ok (addItem menu (fun item =>
    let item := setTitle item "Copy geolocation as front matter" in
    let item := setIcon item "copy" in
    let item := setSection item "copy" in
    onClick item (fun _ev =>
      call (EClipboardWriteText
              ("---" ++ LF ++ "location: [" ++ locationString ++ "]" ++ LF
                 ++ "---" ++ LF ++ LF)) tt))).

Definition addFocusLinesInMapView (menu : Menu) (file : TFile)
    (fromLine toLine numLocations : number) (plugin : MapViewPlugin)
    (settings : PluginSettings) : Result Menu :=
  Ok (addItem menu (fun item =>
    let item :=
      setTitle item
        ("Focus " ++ toString numLocations ++ " "
           ++ (if gt numLocations (ofZ 1) then "geolocations"
               else "geolocation")
           ++ " in Map View") in
    let item := setIcon item "globe" in
    let item := setSection item "mapview" in
    onClick item (fun evt =>
      let state :=
        {| query := "path:" ++ dquote ++ path file ++ dquote
                      ++ " AND lines:" ++ toString fromLine ++ "-"
                      ++ toString toLine |} in
      p <- call (EOpenMapWithState state (ctrlKey evt) true)
                (openMapWithState plugin state (ctrlKey evt) true) ;;
      await p))).

End WithHost.

(** [addFocusNoteInMapView] reads two functions of [src/utils]:
    [trimmedFileName], when the item is built, and
    [replaceFollowActiveNoteQuery], when it is clicked. *)
Section WithUtils.

Variable trimmedFileName : TFile -> string.
Variable replaceFollowActiveNoteQuery : TFile -> PluginSettings -> string.

Definition addFocusNoteInMapView (menu : Menu) (file : TFile)
    (settings : PluginSettings) (plugin : MapViewPlugin) : Result Menu :=
  Ok (addItem menu (fun item =>
    let fileName := trimmedFileName file in
    let item := setTitle item ("Focus '" ++ fileName ++ "' in Map View") in
    let item := setIcon item "globe" in
    let item := setSection item "mapview" in
    onClick item (fun evt =>
      let state :=
        {| query := replaceFollowActiveNoteQuery file settings |} in
      p <- call (EOpenMapWithState state (ctrlKey evt) true)
                (openMapWithState plugin state (ctrlKey evt) true) ;;
      await p))).

End WithUtils.

End Menus.

(* ===================================================================== *)
(** ** Vocabulary of the properties *)
(* ===================================================================== *)

Module Spec.

(** [s] without its first [n] characters. *)
Fixpoint dropChars (n : nat) (s : string) : string :=
  match n, s with
  | O, _ => s
  | S n', String _ s' => dropChars n' s'
  | S _, EmptyString => EmptyString
  end.

(** [s] with the [len] characters that start at index [i] replaced by
    [r]. *)
Fixpoint splice (s : string) (i len : nat) (r : string) {struct i}
  : string :=
  match i with
  | O => r ++ dropChars len s
  | S i' =>
      match s with
      | EmptyString => r
      | String c s' => String c (splice s' i' len r)
      end
  end.

(** [s] with the first occurrence of [t], if there is one, replaced by
    [r]. *)
Definition replaceFirst (s t r : string) : string :=
  match indexOf t s with
  | None => s
  | Some i => splice s i (length t) r
  end.

(** The pattern with the first occurrence of [{x}] replaced by [X] and
    the first occurrence of [{y}] replaced by [Y], both occurrences
    being located in the pattern itself.  When both tokens occur, the
    one further right is replaced first, so that the index of the
    other one still points at it. *)
Definition substituteFirst (pattern X Y : string) : string :=
  match indexOf "{x}" pattern, indexOf "{y}" pattern with
  | None, None => pattern
  | Some i, None => splice pattern i 3 X
  | None, Some j => splice pattern j 3 Y
  | Some i, Some j =>
      if (i <? j)%nat then splice (splice pattern j 3 Y) i 3 X
      else splice (splice pattern i 3 X) j 3 Y
  end.

(** A rule that yields a menu item. *)
Definition isValidRule (r : OpenInSettings) : bool :=
  match name r, urlPattern r with
  | Some (String _ _), Some (String _ _) => true
  | _, _ => false
  end.

(** The first character of [s], if any. *)
Definition head (s : string) : option ascii :=
  match s with
  | EmptyString => None
  | String c _ => Some c
  end.

(** Every character of [s] satisfies [p]. *)
Fixpoint allChars (p : ascii -> bool) (s : string) : bool :=
  match s with
  | EmptyString => true
  | String c s' => p c && allChars p s'
  end.

(** [c] does not occur in [s]. *)
Definition noChar (c : ascii) (s : string) : bool :=
  allChars (fun d => negb (d =? c)%char) s.

(** A replacement text without [$]: [replace] inserts it as it is. *)
Definition noDollar (r : string) : bool := noChar "$" r.

(** A text that, put in the place of a [{x}], neither contains the
    start of a [{y}] nor completes one with the characters around it:
    it is not empty, does not begin with [y] or [}], and has no [{]. *)
Definition inert (X : string) : bool :=
  match X with
  | EmptyString => false
  | String c _ => negb (c =? "y")%char && negb (c =? "}")%char
  end && noChar "{" X.

(** The characters of a numeral in locale-independent notation:
    digits, the decimal point, a sign and the exponent mark. *)
Definition isDigit (c : ascii) : bool :=
  (("0" <=? c) && (c <=? "9"))%char.

Definition isNumeralChar (c : ascii) : bool :=
  isDigit c || (c =? ".")%char || (c =? "-")%char || (c =? "+")%char
  || (c =? "e")%char.

(** The number of characters of [s] equal to [c]. *)
Fixpoint countChar (c : ascii) (s : string) : nat :=
  match s with
  | EmptyString => O
  | String d s' => (if (c =? d)%char then 1 else 0) + countChar c s'
  end.

(** A number written without any locale convention: a numeral over
    digits, [.], a sign and [e], or the name of a non-finite value. *)
Definition isLocaleIndependent (s : string) : bool :=
  (negb (s =? EmptyString) && allChars isNumeralChar s)
  || (s =? "NaN") || (s =? "Infinity") || (s =? "-Infinity").

(** The menu item that an open-in rule [r] yields at the point [p], as
    [populateOpenInItems] builds it. *)
Definition openInItemOf (p : LatLng) (r : OpenInSettings) (item : MenuItem)
  : Prop :=
  title item = "Open in " ++ stringOf (name r)
  /\ icon item = "map-pin" /\ section item = "mapview"
  /\ forall ev,
       click item ev
       = ([EOpen (replace (replace (stringOf (urlPattern r)) "{x}"
                             (toString (lat p)))
                    "{y}" (toString (lng p)))], Ok tt).

(** The calls of a run, without the suspension marks. *)
Definition calls (t : list Event) : list Event :=
  filter (fun e => match e with EAwait | EResume => false | _ => true end) t.

Definition isFormatWithTemplates (e : Event) : bool :=
  match e with EFormatWithTemplates _ => true | _ => false end.
Definition isNewNote (e : Event) : bool :=
  match e with ENewNote _ _ _ _ _ _ => true | _ => false end.
Definition isAwait (e : Event) : bool :=
  match e with EAwait => true | _ => false end.
Definition isResume (e : Event) : bool :=
  match e with EResume => true | _ => false end.
Definition isGoToFile (e : Event) : bool :=
  match e with EGoToFile _ _ _ => true | _ => false end.
Definition isInsertLocationToEditor (e : Event) : bool :=
  match e with EInsertLocationToEditor _ _ => true | _ => false end.

(** In the run [t], no event satisfying [b] happens unless an event
    satisfying [a] has happened before it. *)
Fixpoint onlyAfter (a b : Event -> bool) (t : list Event) : bool :=
  match t with
  | [] => true
  | e :: t' => if a e then true else negb (b e) && onlyAfter a b t'
  end.

(** The order of a new-note run: the name is formatted before the
    note is requested, the request is made before the handler
    suspends on it, the handler resumes only after suspending, and it
    navigates only after it has been resumed with the file. *)
Definition createsBeforeNavigating (t : list Event) : bool :=
  onlyAfter isFormatWithTemplates isNewNote t
  && onlyAfter isNewNote isAwait t
  && onlyAfter isAwait isResume t
  && onlyAfter isResume isGoToFile t.

(** The run expected of a new-note handler for the note type [kind]:
    format the name, request the note, wait for it and, once the file
    is there, go to it. *)
Definition newNoteRun (host : Host) (settings : PluginSettings) (app : App)
    (kind : NewNoteType) (locationString : string) (ev : MouseEvent)
  : Async unit :=
  let fileName := formatWithTemplates host (newNoteNameFormat settings) in
  let request :=
    [EFormatWithTemplates (newNoteNameFormat settings);
     ENewNote app kind (newNotePath settings) fileName locationString
       (newNoteTemplate settings)] in
  match newNote host app kind (newNotePath settings) fileName
          locationString (newNoteTemplate settings) with
  | Fulfilled file =>
      ((request
          ++ [EAwait; EResume;
              EGoToFile file (ctrlKey ev) handleNewNoteCursorMarker])%list,
       Ok tt)
  | Rejected e => ((request ++ [EAwait])%list, Throw e)
  end.

(** The run expected of the paste handler when the clipboard holds
    [text] and the parse routine returns [r]. *)
Definition pasteRun (text : string) (r : ParseReturn) (editor : Editor)
  : Async unit :=
  let start :=
    [EClipboardReadText; EAwait; EResume; EParseLocationFromUrl text] in
  match r with
  | ReturnsNull => (start, Ok tt)
  | ReturnsLocation parsed =>
      ((start ++ [EInsertLocationToEditor (location parsed) editor])%list,
       Ok tt)
  | ReturnsPromise (Fulfilled (Some parsed)) =>
      ((start ++ [EAwait; EResume;
                  EInsertLocationToEditor (location parsed) editor])%list,
       Ok tt)
  | ReturnsPromise (Fulfilled None) =>
      ((start ++ [EAwait; EResume])%list, Ok tt)
  | ReturnsPromise (Rejected e) => ((start ++ [EAwait])%list, Throw e)
  end.

End Spec.

Import Spec.

(* ===================================================================== *)
(** ** Sample data *)
(* ===================================================================== *)

Module Sample.

(** The point [(1.5, -2.25)]. *)
Definition point_a : LatLng :=
  {| lat := Finite false 15 (-1); lng := Finite true 225 (-2) |}.

(** The point [(10, 20)]. *)
Definition point_b : LatLng := {| lat := ofZ 10; lng := ofZ 20 |}.

Definition rule (n u : string) : OpenInSettings :=
  {| name := Some n; urlPattern := Some u |}.

Definition settingsWith (rules : list OpenInSettings) : PluginSettings :=
  {| openIn := rules;
     newNoteNameFormat := "Location added on {{date:YYYY-MM-DD}}";
     newNotePath := "Places";
     newNoteTemplate := EmptyString |}.

Definition noteFile : TFile := {| path := "Notes/A.md" |}.

Definition plugin : MapViewPlugin :=
  {| openMapWithLocation := fun _ _ _ _ _ => Fulfilled tt;
     openMapWithState := fun _ _ _ => Fulfilled tt |}.

Definition host (clipboard : string) : Host :=
  {| clipboard_readText := Fulfilled clipboard;
     formatWithTemplates := fun f => f;
     newNote := fun _ _ dir file _ _ =>
                  Fulfilled {| path := dir ++ "/" ++ file ++ ".md" |} |}.

Definition plainClick : MouseEvent :=
  {| ctrlKey := false; shiftKey := false |}.

End Sample.

(* ===================================================================== *)
(** ** Vocabulary of the further properties *)
(* ===================================================================== *)

Module Props.

(** The result of a contributor that is run on [menu] and adds what
    [r] holds, or fails as [r] does. *)
Definition extend (menu : Menu) (r : Result Menu) : Result Menu :=
  match r with
  | Ok added => Ok (menu ++ added)%list
  | Throw e => Throw e
  end.



(** The settings with another list of open-in rules. *)
Definition withRules (settings : PluginSettings)
    (rules : list OpenInSettings) : PluginSettings :=
  {| openIn := rules;
     newNoteNameFormat := newNoteNameFormat settings;
     newNotePath := newNotePath settings;
     newNoteTemplate := newNoteTemplate settings |}.

(** [s] cut at the first occurrence of [sep]. *)
Definition splitAtFirst (sep s : string) : option (string * string) :=
  match indexOf sep s with
  | Some i => Some (substringFromTo s 0 i, dropChars (i + length sep) s)
  | None => None
  end.

(** The location strings handed to [newNote] during a run. *)
Definition newNoteLocationStrings (t : list Event) : list string :=
  flat_map (fun e => match e with
                     | ENewNote _ _ _ _ l _ => [l]
                     | _ => []
                     end) t.

(** The run of a handler that makes the call [ev] and awaits the
    promise [p] it returns. *)
Definition awaitedCall (ev : Event) (p : Promise unit) : Async unit :=
  match p with
  | Fulfilled _ => ([ev; EAwait; EResume], Ok tt)
  | Rejected e => ([ev; EAwait], Throw e)
  end.

(** The item of [menu] with the title [t], if there is one. *)
Definition itemTitled (t : string) (menu : Menu) : option MenuItem :=
  find (fun item => title item =? t) menu.

(** The run of clicking the item titled [t] among the items a
    contributor returned. *)
Definition clickTitled (t : string) (r : Result Menu) (ev : MouseEvent)
  : option (Async unit) :=
  match r with
  | Ok menu => option_map (fun item => click item ev) (itemTitled t menu)
  | Throw _ => None
  end.

End Props.

Import Props.

(* ===================================================================== *)
(** ** Strings: search and replacement *)
(* ===================================================================== *)

Lemma prefix_cons_inv (a b : ascii) (t s : string) :
  prefix (String a t) (String b s) = true -> a = b /\ prefix t s = true.
Proof.
  simpl. destruct (ascii_dec a b) as [->|]; [tauto | discriminate].
Qed.

Lemma prefix_app (t r : string) : prefix t (t ++ r) = true.
Proof.
  induction t as [|a t IH]; simpl.
  - destruct r; reflexivity.
  - destruct (ascii_dec a a); [exact IH | congruence].
Qed.

Lemma prefix_split (t s : string) :
  prefix t s = true -> s = t ++ dropChars (length t) s.
Proof.
  revert s. induction t as [|a t IH]; intros s H; [reflexivity|].
  destruct s as [|b s]; [discriminate|].
  apply prefix_cons_inv in H as [<- H].
  simpl. f_equal. apply IH, H.
Qed.

Lemma append_nil_r (s : string) : s ++ EmptyString = s.
Proof. induction s; simpl; congruence. Qed.

Lemma append_assoc (a b c : string) : (a ++ b) ++ c = a ++ (b ++ c).
Proof. induction a; simpl; congruence. Qed.

Lemma length_append (a b : string) :
  length (a ++ b) = (length a + length b)%nat.
Proof. induction a; simpl; congruence. Qed.

Lemma substring_0_0 (s : string) : substring 0 0 s = EmptyString.
Proof. destruct s; reflexivity. Qed.

Lemma substring_whole (s : string) : substring 0 (length s) s = s.
Proof. induction s; simpl; congruence. Qed.

Lemma substringFromTo_drop (s : string) (n : nat) :
  substringFromTo s n (length s) = dropChars n s.
Proof.
  unfold substringFromTo. revert n.
  induction s as [|c s IH]; intros [|n]; simpl; try reflexivity.
  - f_equal. apply substring_whole.
  - apply IH.
Qed.

Lemma splice_substring (s : string) (i len : nat) (r : string) :
  substringFromTo s 0 i ++ r ++ substringFromTo s (i + len) (length s)
  = splice s i len r.
Proof.
  revert s. induction i as [|i IH]; intros s.
  - unfold substringFromTo at 1. simpl Nat.sub. rewrite substring_0_0.
    simpl. now rewrite substringFromTo_drop.
  - destruct s as [|c s].
    + simpl. apply append_nil_r.
    + specialize (IH s). unfold substringFromTo in *. simpl in *.
      rewrite Nat.sub_0_r in IH. now rewrite IH.
Qed.

Lemma GetSubstitution_plain (m p f r : string) :
  noDollar r = true -> GetSubstitution m p f r = r.
Proof.
  unfold noDollar, noChar. induction r as [|c r IH]; simpl; [reflexivity|].
  intros H. apply andb_true_iff in H as [Hc Hr].
  apply negb_true_iff in Hc. rewrite Hc. now rewrite IH.
Qed.

(** [replace] locates the first occurrence and splices the replacement
    in. *)
Lemma replace_replaceFirst (s t r : string) :
  noDollar r = true -> replace s t r = replaceFirst s t r.
Proof.
  intros H. unfold replace, replaceFirst.
  destruct (indexOf t s) as [pos|]; [|reflexivity].
  rewrite GetSubstitution_plain by exact H.
  apply splice_substring.
Qed.

Lemma replaceFirst_match (s t r : string) :
  prefix t s = true -> replaceFirst s t r = r ++ dropChars (length t) s.
Proof.
  intros H. unfold replaceFirst.
  destruct s; simpl in *; rewrite H; reflexivity.
Qed.

Lemma indexOf_cons (t : string) (c : ascii) (s : string) :
  prefix t (String c s) = false ->
  indexOf t (String c s) = option_map S (indexOf t s).
Proof.
  intros H. change (indexOf t (String c s))
    with (if prefix t (String c s) then Some 0%nat
          else option_map S (indexOf t s)).
  now rewrite H.
Qed.

Lemma replaceFirst_cons (c : ascii) (s t r : string) :
  prefix t (String c s) = false ->
  replaceFirst (String c s) t r = String c (replaceFirst s t r).
Proof.
  intros H. unfold replaceFirst. rewrite indexOf_cons by exact H.
  destruct (indexOf t s); reflexivity.
Qed.

Lemma prefix_nil (s : string) : prefix EmptyString s = true.
Proof. destruct s; reflexivity. Qed.

Lemma prefix_iff (t s : string) :
  prefix t s = true <-> exists q, s = t ++ q.
Proof.
  split.
  - intros H. eexists. apply prefix_split, H.
  - intros [q ->]. apply prefix_app.
Qed.

Lemma prefix_head_neq (a : ascii) (t : string) (c : ascii) (s : string) :
  c <> a -> prefix (String a t) (String c s) = false.
Proof.
  intros H. simpl. destruct (ascii_dec a c); [congruence | reflexivity].
Qed.

(** Replacing [{y}] in a text that begins with an inserted [X]. *)
Lemma replaceFirst_skip (X q Y : string) :
  noChar "{" X = true ->
  replaceFirst (X ++ q) "{y}" Y = X ++ replaceFirst q "{y}" Y.
Proof.
  unfold noChar. induction X as [|c X IH]; simpl; intros H; [reflexivity|].
  apply andb_true_iff in H as [Hc HX].
  apply negb_true_iff, Ascii.eqb_neq in Hc.
  rewrite replaceFirst_cons by (apply prefix_head_neq, Hc).
  now rewrite IH.
Qed.

Lemma head_replaceFirst (s t r : string) :
  t <> EmptyString -> r <> EmptyString ->
  head (replaceFirst s t r) = if prefix t s then head r else head s.
Proof.
  intros Ht Hr. destruct (prefix t s) eqn:E.
  - rewrite replaceFirst_match by exact E. destruct r; [congruence|reflexivity].
  - destruct s as [|c s].
    + unfold replaceFirst. simpl. destruct t; [congruence|reflexivity].
    + now rewrite replaceFirst_cons.
Qed.

Lemma inert_head (X : string) :
  inert X = true ->
  X <> EmptyString /\ head X <> Some "y"%char /\ head X <> Some "}"%char
  /\ noChar "{" X = true.
Proof.
  unfold inert. destruct X as [|c X]; [discriminate|].
  intros H. apply andb_true_iff in H as [H1 H3].
  apply andb_true_iff in H1 as [H1 H2].
  apply negb_true_iff, Ascii.eqb_neq in H1, H2.
  simpl. repeat split; congruence.
Qed.

Lemma prefix_3_inv (a b c : ascii) (s : string) :
  prefix (String a (String b (String c EmptyString))) s = true ->
  exists q, s = String a (String b (String c q)).
Proof.
  intros H. apply prefix_iff in H as [q ->]. now exists q.
Qed.

(** Putting an inert text in the place of the first [{x}] does not
    create a [{y}] at a position where the pattern has neither token. *)
Lemma no_new_token (c : ascii) (p X : string) :
  inert X = true ->
  prefix "{x}" (String c p) = false ->
  prefix "{y}" (String c p) = false ->
  prefix "{y}" (String c (replaceFirst p "{x}" X)) = false.
Proof.
  intros HX Hx Hy.
  apply inert_head in HX as (Hne & Hh1 & Hh2 & _).
  destruct (prefix "{y}" (String c (replaceFirst p "{x}" X))) eqn:E;
    [exfalso | reflexivity].
  apply prefix_3_inv in E as [q E]. injection E as -> E.
  assert (H1 : head (replaceFirst p "{x}" X) = Some "y"%char)
    by now rewrite E.
  rewrite head_replaceFirst in H1 by (assumption || discriminate).
  destruct (prefix "{x}" p) eqn:Ep; [congruence|].
  destruct p as [|d p]; [discriminate|]. injection H1 as ->.
  rewrite replaceFirst_cons in E by exact Ep. injection E as E.
  assert (H2 : head (replaceFirst p "{x}" X) = Some "}"%char)
    by now rewrite E.
  rewrite head_replaceFirst in H2 by (assumption || discriminate).
  destruct (prefix "{x}" p) eqn:Ep'; [congruence|].
  destruct p as [|e p]; [discriminate|]. injection H2 as ->.
  pose proof (prefix_app "{y}" p) as F. simpl append in F. congruence.
Qed.

Lemma indexOf_match (t s : string) :
  prefix t s = true -> indexOf t s = Some 0%nat.
Proof. intros H. destruct s; simpl in *; now rewrite H. Qed.

(** Equations of [substituteFirst], following the pattern from left to
    right. *)
Lemma substituteFirst_at_x (p X Y : string) :
  prefix "{x}" p = true ->
  substituteFirst p X Y = X ++ replaceFirst (dropChars 3 p) "{y}" Y.
Proof.
  intros H. unfold substituteFirst, replaceFirst.
  rewrite (indexOf_match _ _ H).
  apply prefix_3_inv in H as [q ->]. simpl dropChars.
  rewrite !indexOf_cons by reflexivity.
  destruct (indexOf "{y}" q) as [j|]; reflexivity.
Qed.

Lemma substituteFirst_at_y (p X Y : string) :
  prefix "{y}" p = true ->
  substituteFirst p X Y = Y ++ replaceFirst (dropChars 3 p) "{x}" X.
Proof.
  intros H. unfold substituteFirst, replaceFirst.
  rewrite (indexOf_match _ _ H).
  apply prefix_3_inv in H as [q ->]. simpl dropChars.
  rewrite !indexOf_cons by reflexivity.
  destruct (indexOf "{x}" q) as [i|]; reflexivity.
Qed.

Lemma substituteFirst_cons (c : ascii) (p X Y : string) :
  prefix "{x}" (String c p) = false ->
  prefix "{y}" (String c p) = false ->
  substituteFirst (String c p) X Y = String c (substituteFirst p X Y).
Proof.
  intros Hx Hy. unfold substituteFirst.
  rewrite (indexOf_cons _ _ _ Hx), (indexOf_cons _ _ _ Hy).
  destruct (indexOf "{x}" p) as [i|], (indexOf "{y}" p) as [j|];
    simpl; try reflexivity.
  change (S i <? S j)%nat with (i <? j)%nat.
  destruct (i <? j)%nat; reflexivity.
Qed.

(** Replacing the first [{x}] and then the first [{y}] of the result
    replaces the first [{x}] and the first [{y}] of the pattern. *)
Lemma sequential_is_simultaneous (p X Y : string) :
  inert X = true ->
  replaceFirst (replaceFirst p "{x}" X) "{y}" Y = substituteFirst p X Y.
Proof.
  intros HX. induction p as [|c p IH]; [reflexivity|].
  destruct (prefix "{x}" (String c p)) eqn:Ex.
  - rewrite (replaceFirst_match _ "{x}") by exact Ex.
    rewrite substituteFirst_at_x by exact Ex.
    apply replaceFirst_skip. now apply inert_head in HX.
  - rewrite replaceFirst_cons by exact Ex.
    destruct (prefix "{y}" (String c p)) eqn:Ey.
    + rewrite substituteFirst_at_y by exact Ey.
      apply prefix_3_inv in Ey as [q Eq]. injection Eq as -> ->.
      rewrite (replaceFirst_cons "y" _ "{x}") by reflexivity.
      rewrite (replaceFirst_cons "}" _ "{x}") by reflexivity.
      rewrite replaceFirst_match by apply (prefix_app "{y}").
      reflexivity.
    + rewrite replaceFirst_cons by now apply no_new_token.
      rewrite IH. symmetry. now apply substituteFirst_cons.
Qed.

(** *** The vocabulary in terms of occurrences

    [indexOf] finds the first occurrence, [splice] rewrites exactly the
    occurrence it is pointed at, and [substituteFirst] therefore turns
    [a{x}b{y}c] into [aXbYc] when these are the first occurrences. *)

Lemma indexOf_Some_first (t s : string) (i : nat) :
  indexOf t s = Some i ->
  exists a b,
    s = a ++ t ++ b /\ length a = i
    /\ forall a' b', s = a' ++ t ++ b' -> (i <= length a')%nat.
Proof.
  revert i. induction s as [|c s IH]; intros i H.
  - destruct t as [|d t]; [|discriminate].
    injection H as <-. exists EmptyString, EmptyString.
    split; [reflexivity|]. split; [reflexivity | intros; lia].
  - destruct (prefix t (String c s)) eqn:E.
    + rewrite (indexOf_match _ _ E) in H. injection H as <-.
      exists EmptyString. eexists.
      split; [apply prefix_split, E|]. split; [reflexivity | intros; lia].
    + rewrite (indexOf_cons _ _ _ E) in H.
      destruct (indexOf t s) as [i'|]; [|discriminate]. injection H as <-.
      destruct (IH i' eq_refl) as (a & b & -> & <- & Hmin).
      exists (String c a), b. split; [reflexivity|]. split; [reflexivity|].
      intros [|c' a'] b' Heq; simpl in Heq.
      * rewrite Heq, prefix_app in E. discriminate.
      * injection Heq as -> Heq. simpl. apply le_n_S, (Hmin a' b'), Heq.
Qed.

Lemma indexOf_None_absent (t s : string) :
  indexOf t s = None -> forall a b, s <> a ++ t ++ b.
Proof.
  intros H a. revert s H. induction a as [|c a IH]; intros s H b ->.
  - simpl in H. rewrite (indexOf_match _ _ (prefix_app t b)) in H.
    discriminate.
  - simpl append in H.
    destruct (prefix t (String c (a ++ t ++ b))) eqn:Ep.
    + rewrite (indexOf_match _ _ Ep) in H. discriminate.
    + rewrite (indexOf_cons _ _ _ Ep) in H.
      destruct (indexOf t (a ++ t ++ b)) eqn:E; [discriminate|].
      now apply (IH _ E b).
Qed.

Lemma dropChars_append (t b : string) : dropChars (length t) (t ++ b) = b.
Proof. induction t; simpl; auto. Qed.

Lemma splice_at (a t b r : string) :
  splice (a ++ t ++ b) (length a) (length t) r = a ++ r ++ b.
Proof.
  induction a as [|c a IH]; simpl.
  - now rewrite dropChars_append.
  - now rewrite IH.
Qed.

Lemma indexOf_first_occurrence (a t b : string) :
  (forall a' b', a ++ t ++ b = a' ++ t ++ b' -> (length a <= length a')%nat) ->
  indexOf t (a ++ t ++ b) = Some (length a).
Proof.
  intros Hfirst. destruct (indexOf t (a ++ t ++ b)) as [i|] eqn:E.
  - destruct (indexOf_Some_first _ _ _ E) as (a0 & b0 & E0 & <- & Hmin).
    f_equal. apply Nat.le_antisymm; [apply (Hmin a b) | apply (Hfirst a0 b0)];
      auto.
  - now destruct (indexOf_None_absent _ _ E a b).
Qed.

Lemma replaceFirst_first_occurrence (a t b r : string) :
  (forall a' b', a ++ t ++ b = a' ++ t ++ b' -> (length a <= length a')%nat) ->
  replaceFirst (a ++ t ++ b) t r = a ++ r ++ b.
Proof.
  intros H. unfold replaceFirst.
  rewrite (indexOf_first_occurrence _ _ _ H). apply splice_at.
Qed.

Lemma replaceFirst_absent (s t r : string) :
  (forall a b, s <> a ++ t ++ b) -> replaceFirst s t r = s.
Proof.
  intros H. unfold replaceFirst.
  destruct (indexOf t s) as [i|] eqn:E; [|reflexivity].
  destruct (indexOf_Some_first _ _ _ E) as (a & b & E' & _).
  now apply H in E'.
Qed.

Lemma substituteFirst_x_then_y (a b c X Y : string) :
  indexOf "{x}" (a ++ "{x}" ++ b ++ "{y}" ++ c) = Some (length a) ->
  indexOf "{y}" (a ++ "{x}" ++ b ++ "{y}" ++ c)
  = Some (length (a ++ "{x}" ++ b)) ->
  substituteFirst (a ++ "{x}" ++ b ++ "{y}" ++ c) X Y
  = a ++ X ++ b ++ Y ++ c.
Proof.
  intros Hx Hy. unfold substituteFirst. rewrite Hx, Hy.
  replace (length a <? length (a ++ "{x}" ++ b))%nat with true
    by (symmetry; apply Nat.ltb_lt; rewrite !length_append; simpl; lia).
  replace (a ++ "{x}" ++ b ++ "{y}" ++ c)
    with ((a ++ "{x}" ++ b) ++ "{y}" ++ c)
    by now rewrite !append_assoc.
  rewrite (splice_at (a ++ "{x}" ++ b) "{y}" c Y : splice _ _ 3 _ = _).
  rewrite !append_assoc.
  apply (splice_at a "{x}" (b ++ Y ++ c) X).
Qed.

Lemma substituteFirst_y_then_x (a b c X Y : string) :
  indexOf "{y}" (a ++ "{y}" ++ b ++ "{x}" ++ c) = Some (length a) ->
  indexOf "{x}" (a ++ "{y}" ++ b ++ "{x}" ++ c)
  = Some (length (a ++ "{y}" ++ b)) ->
  substituteFirst (a ++ "{y}" ++ b ++ "{x}" ++ c) X Y
  = a ++ Y ++ b ++ X ++ c.
Proof.
  intros Hy Hx. unfold substituteFirst. rewrite Hx, Hy.
  replace (length (a ++ "{y}" ++ b) <? length a)%nat with false
    by (symmetry; apply Nat.ltb_ge; rewrite !length_append; simpl; lia).
  replace (a ++ "{y}" ++ b ++ "{x}" ++ c)
    with ((a ++ "{y}" ++ b) ++ "{x}" ++ c)
    by now rewrite !append_assoc.
  rewrite (splice_at (a ++ "{y}" ++ b) "{x}" c X : splice _ _ 3 _ = _).
  rewrite !append_assoc.
  apply (splice_at a "{y}" (b ++ X ++ c) Y).
Qed.

(* ===================================================================== *)
(** ** Numbers: the characters of [toString] *)
(* ===================================================================== *)

Lemma allChars_append (p : ascii -> bool) (a b : string) :
  allChars p (a ++ b) = allChars p a && allChars p b.
Proof.
  induction a as [|c a IH]; simpl; [reflexivity|].
  now rewrite IH, andb_assoc.
Qed.

Lemma allChars_impl (p q : ascii -> bool) (s : string) :
  (forall c, p c = true -> q c = true) ->
  allChars p s = true -> allChars q s = true.
Proof.
  intros Hpq. induction s as [|c s IH]; simpl; [reflexivity|].
  intros H. apply andb_true_iff in H as [Hc Hs].
  now rewrite (Hpq _ Hc), IH.
Qed.

Lemma allChars_substring (p : ascii -> bool) (s : string) (n m : nat) :
  allChars p s = true -> allChars p (substring n m s) = true.
Proof.
  revert n m. induction s as [|c s IH]; intros n m H.
  - destruct n, m; reflexivity.
  - simpl in H. apply andb_true_iff in H as [Hc Hs].
    destruct n as [|n]; simpl.
    + destruct m as [|m]; simpl; [reflexivity|].
      now rewrite Hc, IH.
    + now apply IH.
Qed.

Lemma allChars_stripTrailingZeros (p : ascii -> bool) (d : string) :
  allChars p d = true -> allChars p (stripTrailingZeros d) = true.
Proof.
  induction d as [|c d IH]; simpl; [reflexivity|].
  intros H. apply andb_true_iff in H as [Hc Hd]. specialize (IH Hd).
  destruct (stripTrailingZeros d) as [|c' r].
  - destruct (c =? "0")%char; simpl; [reflexivity | now rewrite Hc].
  - simpl in *. now rewrite Hc, IH.
Qed.

Lemma allChars_zeros (n : nat) : allChars isNumeralChar (zeros n) = true.
Proof. induction n; simpl; [reflexivity | exact IHn]. Qed.

Lemma digits_string_of_uint (d : Decimal.uint) :
  allChars isDigit (NilEmpty.string_of_uint d) = true.
Proof. induction d; simpl; auto. Qed.

Lemma isDigit_isNumeralChar (c : ascii) :
  isDigit c = true -> isNumeralChar c = true.
Proof. unfold isNumeralChar. now intros ->. Qed.

Lemma numeral_string_of_uint (d : Decimal.uint) :
  allChars isNumeralChar (NilEmpty.string_of_uint d) = true.
Proof.
  apply (allChars_impl isDigit); [exact isDigit_isNumeralChar|].
  apply digits_string_of_uint.
Qed.

(** A positive integer has a digit other than [0]. *)
Lemma all_zero_of_uint (d : Decimal.uint) :
  allChars (fun c => (c =? "0")%char) (NilEmpty.string_of_uint d) = true ->
  Pos.of_uint d = N0.
Proof. induction d; simpl; intros H; auto; discriminate. Qed.

Lemma stripTrailingZeros_empty (d : string) :
  stripTrailingZeros d = EmptyString ->
  allChars (fun c => (c =? "0")%char) d = true.
Proof.
  induction d as [|c d IH]; simpl; [reflexivity|].
  destruct (stripTrailingZeros d) as [|c' r]; [|discriminate].
  destruct (c =? "0")%char; [intros _; now apply IH | discriminate].
Qed.

Lemma stripped_digits_nonempty (m : positive) :
  stripTrailingZeros (digitsOf m) <> EmptyString.
Proof.
  intros H. apply stripTrailingZeros_empty, all_zero_of_uint in H.
  rewrite DecimalPos.Unsigned.of_to in H. discriminate.
Qed.

Lemma append_nonempty_l (a b : string) :
  a <> EmptyString -> a ++ b <> EmptyString.
Proof. destruct a; [congruence | discriminate]. Qed.

Lemma append_nonempty_r (a : string) (c : ascii) (b : string) :
  a ++ String c b <> EmptyString.
Proof. destruct a; discriminate. Qed.

Lemma toStringPositive_nonempty (m : positive) (e : Z) :
  toStringPositive m e <> EmptyString.
Proof.
  unfold toStringPositive.
  repeat match goal with |- context [if ?b then _ else _] => destruct b end;
    first [ apply append_nonempty_l, stripped_digits_nonempty
          | apply append_nonempty_r
          | discriminate ].
Qed.

Lemma toStringPositive_numeral (m : positive) (e : Z) :
  allChars isNumeralChar (toStringPositive m e) = true.
Proof.
  assert (Hs : allChars isNumeralChar (stripTrailingZeros (digitsOf m)) = true)
    by apply allChars_stripTrailingZeros, numeral_string_of_uint.
  unfold toStringPositive, substringFromTo, decimalOfN.
  repeat match goal with |- context [if ?b then _ else _] => destruct b end;
    rewrite ?allChars_append, ?allChars_zeros, ?Hs,
      ?(allChars_substring _ _ _ _ Hs), ?numeral_string_of_uint;
    reflexivity.
Qed.

(** *** [toString] on sample values and on integers *)

Example toString_fraction : toString (Finite false 15 (-1)) = "1.5".
Proof. reflexivity. Qed.

Example toString_negative : toString (Finite true 225 (-2)) = "-2.25".
Proof. reflexivity. Qed.

Example toString_trailing_zeros : toString (Finite false 1200 (-1)) = "120".
Proof. reflexivity. Qed.

Example toString_small : toString (Finite false 1 (-6)) = "0.000001".
Proof. reflexivity. Qed.

Example toString_smaller : toString (Finite false 123456 (-12)) = "1.23456e-7".
Proof. reflexivity. Qed.

Example toString_large : toString (Finite false 1 21) = "1e+21".
Proof. reflexivity. Qed.

Example toString_zero : toString (Finite true 0 0) = "0".
Proof. reflexivity. Qed.




Lemma numeral_is_plain (s : string) :
  s <> EmptyString -> allChars isNumeralChar s = true ->
  inert s = true /\ noDollar s = true /\ noChar "," s = true.
Proof.
  intros Hne H.
  assert (Hno : forall a, isNumeralChar a = false -> noChar a s = true).
  { intros a Ha. apply (allChars_impl isNumeralChar); [|exact H].
    intros c Hc. apply negb_true_iff, Ascii.eqb_neq. congruence. }
  repeat split; try (apply Hno; reflexivity).
  unfold inert. rewrite (Hno "{"%char eq_refl), andb_true_r.
  destruct s as [|c s]; [congruence|].
  simpl in H. apply andb_true_iff in H as [Hc _].
  apply andb_true_iff.
  split; apply negb_true_iff, Ascii.eqb_neq; intros ->; discriminate.
Qed.

Lemma toString_plain (x : number) :
  inert (toString x) = true /\ noDollar (toString x) = true
  /\ noChar "," (toString x) = true.
Proof.
  destruct x as [|[|]|[|] [|m] e]; simpl; try (repeat split; reflexivity).
  - apply numeral_is_plain; [discriminate|].
    simpl. apply toStringPositive_numeral.
  - apply numeral_is_plain;
      [apply toStringPositive_nonempty | apply toStringPositive_numeral].
Qed.

Lemma toString_localeIndependent (x : number) :
  isLocaleIndependent (toString x) = true.
Proof.
  unfold isLocaleIndependent.
  destruct x as [|[|]|[|] [|m] e]; simpl; try reflexivity.
  - rewrite toStringPositive_numeral. reflexivity.
  - rewrite toStringPositive_numeral, andb_true_r.
    destruct (String.eqb_spec (toStringPositive m e) EmptyString) as [E|_];
      [now apply toStringPositive_nonempty in E | reflexivity].
Qed.

(** The URL that [populateOpenInItems] computes. *)
Lemma fullUrl_substituteFirst (pattern : string) (x y : number) :
  replace (replace pattern "{x}" (toString x)) "{y}" (toString y)
  = substituteFirst pattern (toString x) (toString y).
Proof.
  destruct (toString_plain x) as (Hi & Hd & _).
  destruct (toString_plain y) as (_ & Hd' & _).
  rewrite !replace_replaceFirst by assumption.
  now apply sequential_is_simultaneous.
Qed.

(* ===================================================================== *)
(** ** The open-in rules *)
(* ===================================================================== *)

Lemma valid_rule_test (r : OpenInSettings) :
  negb (truthy (name r)) || negb (truthy (urlPattern r))
  = negb (isValidRule r).
Proof. destruct r as [[[|? ?]|] [[|? ?]|]]; reflexivity. Qed.

(** The loop adds, behind the items already there, one item for each
    valid rule, in the order of the rules. *)
Lemma populateOpenInItems_loop_items (rules : list OpenInSettings) :
  forall (menu : Menu) (p : LatLng),
  exists added,
    Menus.populateOpenInItems_loop rules menu (Some p)
    = Ok (menu ++ added)%list
    /\ Forall2 (openInItemOf p) (filter isValidRule rules) added.
Proof.
  induction rules as [|r rules IH]; intros menu p.
  - exists []. rewrite app_nil_r. split; constructor.
  - simpl. rewrite valid_rule_test.
    destruct (isValidRule r) eqn:E; simpl.
    + edestruct IH as (added & -> & HF).
      eexists (_ :: added). split.
      * unfold addItem. rewrite <- app_assoc. reflexivity.
      * constructor; [|exact HF]. repeat split.
    + apply IH.
Qed.

Lemma Forall2_impl {A B} (P Q : A -> B -> Prop) (l : list A) (l' : list B) :
  (forall a b, P a b -> Q a b) -> Forall2 P l l' -> Forall2 Q l l'.
Proof. intros H F. induction F; constructor; auto. Qed.

Lemma Forall2_map_eq {A B C} (f : A -> C) (g : B -> C)
    (l : list A) (l' : list B) :
  Forall2 (fun a b => g b = f a) l l' -> map g l' = map f l.
Proof. intros F. induction F; simpl; congruence. Qed.

Lemma Forall2_length_eq {A B} (P : A -> B -> Prop)
    (l : list A) (l' : list B) :
  Forall2 P l l' -> List.length l' = List.length l.
Proof. intros F. induction F; simpl; congruence. Qed.

(** C1. The URL of the item of every valid open-in rule is the rule's
    pattern with the first [{x}] of the pattern replaced by the decimal
    string of [lat] and the first [{y}] of the pattern replaced by the
    decimal string of [lng].  For ["https://x.example/{x}/{y}"] at
    [(1.5, -2.25)] it is ["https://x.example/1.5/-2.25"], and a pattern
    that repeats a token has its first occurrence replaced. *)
Theorem open_in_url_substitution :
  (forall (menu : Menu) (p : LatLng) (settings : PluginSettings),
    exists added,
      Menus.populateOpenInItems menu (Some p) settings
      = Ok (menu ++ added)%list
      /\ Forall2
           (fun r item =>
              forall ev,
                click item ev
                = ([EOpen (substituteFirst (stringOf (urlPattern r))
                             (toString (lat p)) (toString (lng p)))],
                   Ok tt))
           (filter isValidRule (openIn settings)) added)
  /\ (exists item,
        Menus.populateOpenInItems [] (Some Sample.point_a)
          (Sample.settingsWith
             [Sample.rule "X" "https://x.example/{x}/{y}"])
        = Ok [item]
        /\ forall ev,
             click item ev = ([EOpen "https://x.example/1.5/-2.25"], Ok tt))
  /\ (exists item,
        Menus.populateOpenInItems [] (Some Sample.point_a)
          (Sample.settingsWith
             [Sample.rule "X" "m?q={x},{y}&c={x},{y}"])
        = Ok [item]
        /\ forall ev,
             click item ev = ([EOpen "m?q=1.5,-2.25&c={x},{y}"], Ok tt)).
Proof.
  split; [|split].
  - intros menu p settings. unfold Menus.populateOpenInItems.
    destruct (populateOpenInItems_loop_items (openIn settings) menu p)
      as (added & E & F).
    exists added. split; [exact E|].
    apply (Forall2_impl (openInItemOf p)); [|exact F].
    intros r item (_ & _ & _ & H) ev.
    rewrite H, fullUrl_substituteFirst. reflexivity.
  - eexists. split; [reflexivity|]. intros ev. reflexivity.
  - eexists. split; [reflexivity|]. intros ev. reflexivity.
Qed.

(** C2. [populateOpenInItems] adds exactly one item for each rule whose
    name and URL pattern are both non-empty, in the order of the rules,
    titled ["Open in "] followed by the name; a rule with a missing or
    empty field adds nothing and the rules after it are still
    processed. *)
Theorem open_in_items_order :
  (forall (menu : Menu) (p : LatLng) (settings : PluginSettings),
    exists added,
      Menus.populateOpenInItems menu (Some p) settings
      = Ok (menu ++ added)%list
      /\ map title added
         = map (fun r => "Open in " ++ stringOf (name r))
             (filter isValidRule (openIn settings))
      /\ List.length added
         = List.length (filter isValidRule (openIn settings)))
  /\ (exists first second,
        Menus.populateOpenInItems [] (Some Sample.point_b)
          (Sample.settingsWith
             [Sample.rule "A" "a:{x}";
              {| name := None; urlPattern := Some "n:{x}" |};
              {| name := Some "E"; urlPattern := Some EmptyString |};
              {| name := Some EmptyString; urlPattern := Some "e:{x}" |};
              {| name := Some "M"; urlPattern := None |};
              Sample.rule "B" "b:{y}"])
        = Ok [first; second]
        /\ title first = "Open in A" /\ title second = "Open in B").
Proof.
  split.
  - intros menu p settings. unfold Menus.populateOpenInItems.
    destruct (populateOpenInItems_loop_items (openIn settings) menu p)
      as (added & E & F).
    exists added. split; [exact E|]. split.
    + apply Forall2_map_eq.
      apply (Forall2_impl (openInItemOf p)); [|exact F].
      now intros r item (H & _).
    + apply (Forall2_length_eq _ _ _ F).
  - do 2 eexists. split; [reflexivity|]. split; reflexivity.
Qed.

(* ===================================================================== *)
(** ** Contributors gated on the geolocation *)
(* ===================================================================== *)

(** C4. With an absent geolocation, [addShowOnMap] and [addOpenWith]
    return normally and leave the menu as it was: no item is added and
    the number of items is unchanged. *)
Theorem absent_geolocation_noop :
  forall (menu : Menu) (file : TAbstractFile) (editorLine : number)
         (plugin : MapViewPlugin) (settings : PluginSettings),
    Menus.addShowOnMap menu None file editorLine plugin = Ok menu
    /\ Menus.addOpenWith menu None settings = Ok menu
    /\ (exists menu',
          Menus.addShowOnMap menu None file editorLine plugin = Ok menu'
          /\ List.length menu' = List.length menu)
    /\ (exists menu',
          Menus.addOpenWith menu None settings = Ok menu'
          /\ List.length menu' = List.length menu).
Proof.
  intros. repeat split; try (exists menu; split); reflexivity.
Qed.

(** C9. The handler of "Open with default app" opens exactly the URI
    [geo:] followed by the decimal string of [lat], a comma and the
    decimal string of [lng]; the two decimal strings are written
    without locale conventions: they contain no comma, and apart from
    the names of the non-finite values they consist of digits, [.], a
    sign and [e] only. *)
Theorem open_with_geo_uri :
  (forall (menu : Menu) (p : LatLng) (settings : PluginSettings),
    exists item rest,
      Menus.addOpenWith menu (Some p) settings
      = Ok (menu ++ item :: rest)%list
      /\ title item = "Open with default app"
      /\ (forall ev,
            click item ev
            = ([EOpen ("geo:" ++ toString (lat p) ++ ","
                         ++ toString (lng p))], Ok tt))
      /\ isLocaleIndependent (toString (lat p)) = true
      /\ isLocaleIndependent (toString (lng p)) = true
      /\ noChar "," (toString (lat p)) = true
      /\ noChar "," (toString (lng p)) = true)
  /\ (exists item,
        Menus.addOpenWith []
          (Some {| lat := Finite false 12345675 (-1);
                   lng := Finite true 1 (-6) |})
          (Sample.settingsWith [])
        = Ok [item]
        /\ forall ev,
             click item ev = ([EOpen "geo:1234567.5,-0.000001"], Ok tt)).
Proof.
  split.
  - intros menu p settings. unfold Menus.addOpenWith, Menus.populateOpenInItems.
    edestruct populateOpenInItems_loop_items as (added & -> & _).
    do 2 eexists. split.
    + unfold addItem. rewrite <- app_assoc. reflexivity.
    + repeat split;
        first [ apply toString_localeIndependent | apply toString_plain ].
  - eexists. split; [reflexivity|]. intros ev. reflexivity.
Qed.

(* ===================================================================== *)
(** ** Contributors that read the geolocation at once *)
(* ===================================================================== *)

(** C5. [addCopyGeolocationItems] adds exactly two items.  The first
    writes ["[](geo:lat,lng)"] to the clipboard, the second the front
    matter block: a [---] line, a [location: [lat,lng]] line, a [---]
    line and an empty line.  For [(10, 20)] the texts are
    ["[](geo:10,20)"] and the block for [10,20]. *)
Theorem copy_items_exact :
  (forall (menu : Menu) (p : LatLng),
    exists plain front,
      Menus.addCopyGeolocationItems menu (Some p)
      = Ok (menu ++ [plain; front])%list
      /\ (forall ev,
            click plain ev
            = ([EClipboardWriteText
                  ("[](geo:" ++ toString (lat p) ++ "," ++ toString (lng p)
                     ++ ")")], Ok tt))
      /\ (forall ev,
            click front ev
            = ([EClipboardWriteText
                  ("---" ++ LF ++ "location: [" ++ toString (lat p) ++ ","
                     ++ toString (lng p) ++ "]" ++ LF ++ "---" ++ LF ++ LF)],
               Ok tt)))
  /\ (exists plain front,
        Menus.addCopyGeolocationItems [] (Some Sample.point_b)
        = Ok [plain; front]
        /\ (forall ev,
              click plain ev = ([EClipboardWriteText "[](geo:10,20)"], Ok tt))
        /\ (forall ev,
              click front ev
              = ([EClipboardWriteText
                    ("---" ++ LF ++ "location: [10,20]" ++ LF ++ "---" ++ LF
                       ++ LF)], Ok tt))
        /\ list_ascii_of_string
             ("---" ++ LF ++ "location: [10,20]" ++ LF ++ "---" ++ LF ++ LF)
           = ["-"; "-"; "-"; "010"; "l"; "o"; "c"; "a"; "t"; "i"; "o"; "n";
              ":"; " "; "["; "1"; "0"; ","; "2"; "0"; "]"; "010";
              "-"; "-"; "-"; "010"; "010"]%char).
Proof.
  split.
  - intros menu p. do 2 eexists. split; [|split].
    + unfold Menus.addCopyGeolocationItems, addItem. simpl.
      rewrite <- app_assoc. reflexivity.
    + intros ev. simpl. now rewrite !append_assoc.
    + intros ev. simpl. now rewrite !append_assoc.
  - do 2 eexists. repeat split.
Qed.

(** C10. [addNewNoteItems] and [addCopyGeolocationItems] read
    [geolocation.lat] before adding anything and without a test: with
    an absent geolocation they throw a [TypeError] while the menu is
    being populated, where the gated [addShowOnMap] and [addOpenWith]
    return normally; with a geolocation they add their two items. *)
Theorem eager_read_throws :
  forall (host : Host) (menu : Menu) (mapContainer : MapContainer)
         (settings : PluginSettings) (app : App),
    (exists message,
       Menus.addNewNoteItems host menu None mapContainer settings app
       = Throw (TypeError message))
    /\ (exists message,
          Menus.addCopyGeolocationItems menu None
          = Throw (TypeError message))
    /\ Menus.addOpenWith menu None settings = Ok menu
    /\ (forall p, exists a b,
          Menus.addNewNoteItems host menu (Some p) mapContainer settings app
          = Ok (menu ++ [a; b])%list)
    /\ (forall p, exists a b,
          Menus.addCopyGeolocationItems menu (Some p)
          = Ok (menu ++ [a; b])%list).
Proof.
  intros. split; [|split; [|split; [|split]]].
  - eexists. reflexivity.
  - eexists. reflexivity.
  - reflexivity.
  - intros p. do 2 eexists.
    unfold Menus.addNewNoteItems, addItem. simpl.
    rewrite <- app_assoc. reflexivity.
  - intros p. do 2 eexists.
    unfold Menus.addCopyGeolocationItems, addItem. simpl.
    rewrite <- app_assoc. reflexivity.
Qed.

(* ===================================================================== *)
(** ** Focussing a range of lines *)
(* ===================================================================== *)

Lemma ge_cases (x y : number) :
  ge x y = true ->
  (gt x y = true /\ equals x y = false)
  \/ (gt x y = false /\ equals x y = true).
Proof.
  unfold ge, gt, equals.
  destruct (compareNumbers x y) as [[]|]; intros H;
    try discriminate; auto.
Qed.

Lemma calls_call_await {A} (ev : Event) (p : Promise A) :
  ev <> EAwait -> ev <> EResume ->
  calls (fst (bind (call ev p) await)) = [ev].
Proof.
  intros H1 H2. destruct p; simpl; destruct ev; congruence.
Qed.

(** C6. For a count [numLocations >= 1], [addFocusLinesInMapView] adds
    one item titled "Focus N geolocations in Map View" when
    [numLocations > 1] and "Focus N geolocation in Map View" when
    [numLocations = 1]; its click asks for the map with the query
    [path:"<file path>" AND lines:<fromLine>-<toLine>].  For the path
    [Notes/A.md] and the lines 3 to 9 that is
    [path:"Notes/A.md" AND lines:3-9]. *)
Theorem focus_lines_item :
  (forall (menu : Menu) (file : TFile) (fromLine toLine numLocations : number)
          (plugin : MapViewPlugin) (settings : PluginSettings),
    ge numLocations (ofZ 1) = true ->
    exists item noun,
      Menus.addFocusLinesInMapView menu file fromLine toLine numLocations
        plugin settings
      = Ok (menu ++ [item])%list
      /\ title item
         = "Focus " ++ toString numLocations ++ " " ++ noun ++ " in Map View"
      /\ (noun = "geolocations" <-> gt numLocations (ofZ 1) = true)
      /\ (noun = "geolocation" <-> equals numLocations (ofZ 1) = true)
      /\ forall ev,
           calls (fst (click item ev))
           = [EOpenMapWithState
                {| query := "path:" ++ dquote ++ path file ++ dquote
                              ++ " AND lines:" ++ toString fromLine ++ "-"
                              ++ toString toLine |}
                (ctrlKey ev) true])
  /\ (forall plugin settings, exists item,
        Menus.addFocusLinesInMapView [] Sample.noteFile (ofZ 3) (ofZ 9)
          (ofZ 2) plugin settings
        = Ok [item]
        /\ title item = "Focus 2 geolocations in Map View"
        /\ forall ev,
             calls (fst (click item ev))
             = [EOpenMapWithState
                  {| query := "path:" ++ dquote ++ "Notes/A.md" ++ dquote
                                ++ " AND lines:3-9" |}
                  (ctrlKey ev) true])
  /\ (forall plugin settings, exists item,
        Menus.addFocusLinesInMapView [] Sample.noteFile (ofZ 3) (ofZ 3)
          (ofZ 1) plugin settings
        = Ok [item]
        /\ title item = "Focus 1 geolocation in Map View").
Proof.
  split; [|split].
  - intros menu file fromLine toLine numLocations plugin settings Hge.
    eexists.
    exists (if gt numLocations (ofZ 1) then "geolocations" else "geolocation").
    split; [reflexivity|]. split; [reflexivity|].
    split; [|split].
    + destruct (gt numLocations (ofZ 1)); split; congruence.
    + destruct (ge_cases _ _ Hge) as [[-> ->]|[-> ->]]; split; congruence.
    + intros ev. apply calls_call_await; discriminate.
  - intros plugin settings. eexists. split; [reflexivity|].
    split; [reflexivity|].
    intros ev. apply calls_call_await; discriminate.
  - intros plugin settings. eexists. split; reflexivity.
Qed.

Lemma focus_lines_item_witness :
  ge (ofZ 4) (ofZ 1) = true
  /\ exists item noun,
      Menus.addFocusLinesInMapView [] Sample.noteFile (ofZ 12) (ofZ 40)
        (ofZ 4) Sample.plugin (Sample.settingsWith [])
      = Ok ([] ++ [item])%list
      /\ title item
         = "Focus " ++ toString (ofZ 4) ++ " " ++ noun ++ " in Map View"
      /\ (noun = "geolocations" <-> gt (ofZ 4) (ofZ 1) = true)
      /\ (noun = "geolocation" <-> equals (ofZ 4) (ofZ 1) = true)
      /\ forall ev,
           calls (fst (click item ev))
           = [EOpenMapWithState
                {| query := "path:" ++ dquote ++ path Sample.noteFile
                              ++ dquote ++ " AND lines:" ++ toString (ofZ 12)
                              ++ "-" ++ toString (ofZ 40) |}
                (ctrlKey ev) true].
Proof.
  split; [reflexivity|].
  apply (proj1 focus_lines_item). reflexivity.
Defined.

(* ===================================================================== *)
(** ** Converting text to a geolocation *)
(* ===================================================================== *)

Lemma string_nonempty_truthy (s : string) :
  truthy (Some s) = true <-> s <> EmptyString.
Proof. destruct s; simpl; split; congruence. Qed.

(** C7. [addUrlConversionItems] adds "Convert to geolocation
    (geosearch)" exactly when the selection is not empty, "Convert to
    geolocation" exactly when the convertor reports a match in the
    line, and "Paste as geolocation" always; with a selection and a
    match both conversion items are there. *)
Theorem url_conversion_gating :
  forall (host : Host) (menu : Menu) (editor : Editor)
         (suggestor : LocationSuggest) (urlConvertor : UrlConvertor),
    exists added,
      Menus.addUrlConversionItems host menu editor suggestor urlConvertor
      = Ok (menu ++ added)%list
      /\ map title added
         = ((if truthy (Some (getSelection editor))
             then ["Convert to geolocation (geosearch)"] else [])
            ++ (if hasMatchInLine urlConvertor editor
                then ["Convert to geolocation"] else [])
            ++ ["Paste as geolocation"])%list
      /\ (In "Convert to geolocation (geosearch)" (map title added)
          <-> getSelection editor <> EmptyString)
      /\ (In "Convert to geolocation" (map title added)
          <-> hasMatchInLine urlConvertor editor = true)
      /\ In "Paste as geolocation" (map title added).
Proof.
  intros.
  pose proof (string_nonempty_truthy (getSelection editor)) as Hs.
  unfold Menus.addUrlConversionItems, addItem.
  destruct (truthy (Some (getSelection editor)));
    destruct (hasMatchInLine urlConvertor editor);
    rewrite <- ?app_assoc; eexists; (split; [reflexivity|]);
    simpl; (split; [reflexivity|]);
    intuition (try discriminate; try congruence).
Qed.

(** C3. With [text] on the clipboard, the handler of "Paste as
    geolocation" reads the clipboard, hands the text to the parse
    routine, suspends on the result exactly when it is a promise, and
    then inserts the location if one was recovered; when the parse
    yields nothing, at once or through its promise, the handler ends
    normally without touching the editor. *)
Theorem paste_handler_run :
  forall (text : string) (format : string -> string)
         (create : App -> NewNoteType -> string -> string -> string ->
                   string -> Promise TFile)
         (menu : Menu) (editor : Editor) (suggestor : LocationSuggest)
         (urlConvertor : UrlConvertor),
    exists earlier item,
      Menus.addUrlConversionItems
        {| clipboard_readText := Fulfilled text;
           formatWithTemplates := format;
           newNote := create |}
        menu editor suggestor urlConvertor
      = Ok (menu ++ earlier ++ [item])%list
      /\ title item = "Paste as geolocation"
      /\ forall ev,
           click item ev
           = pasteRun text (parseLocationFromUrl urlConvertor text) editor
           /\ (existsb isInsertLocationToEditor (fst (click item ev))
               = match parseLocationFromUrl urlConvertor text with
                 | ReturnsLocation _
                 | ReturnsPromise (Fulfilled (Some _)) => true
                 | _ => false
                 end)
           /\ (List.length (filter isAwait (fst (click item ev)))
               = match parseLocationFromUrl urlConvertor text with
                 | ReturnsPromise _ => 2%nat
                 | _ => 1%nat
                 end).
Proof.
  intros. unfold Menus.addUrlConversionItems, addItem.
  destruct (truthy (Some (getSelection editor)));
    destruct (hasMatchInLine urlConvertor editor);
    rewrite <- ?app_assoc; simpl;
    match goal with
    | |- exists _ _, Ok (_ ++ [?a; ?b; ?c])%list = _ /\ _ => exists [a; b], c
    | |- exists _ _, Ok (_ ++ [?a; ?b])%list = _ /\ _ => exists [a], b
    | |- exists _ _, Ok (_ ++ [?a])%list = _ /\ _ => exists [], a
    end;
    (split; [reflexivity|]);
    (split; [reflexivity|]);
    intros ev; unfold click; simpl;
    destruct (parseLocationFromUrl urlConvertor text) as [|?|[[?|]|?]];
    repeat split.
Qed.

(* ===================================================================== *)
(** ** Creating a note *)
(* ===================================================================== *)

(** C8. Both new-note handlers format the file name first, then
    request the note and wait for it, and go to the file only after
    the wait has ended with the file; when the creation fails there is
    no navigation. *)
Theorem new_note_ordering :
  forall (host : Host) (menu : Menu) (p : LatLng)
         (mapContainer : MapContainer) (settings : PluginSettings)
         (app : App),
    exists inline front,
      Menus.addNewNoteItems host menu (Some p) mapContainer settings app
      = Ok (menu ++ [inline; front])%list
      /\ title inline = "New note here (inline)"
      /\ title front = "New note here (front matter)"
      /\ forall ev,
           click inline ev
           = newNoteRun host settings app multiLocation
               (toString (lat p) ++ "," ++ toString (lng p)) ev
           /\ click front ev
              = newNoteRun host settings app singleLocation
                  (toString (lat p) ++ "," ++ toString (lng p)) ev
           /\ createsBeforeNavigating (fst (click inline ev)) = true
           /\ createsBeforeNavigating (fst (click front ev)) = true.
Proof.
  intros. do 2 eexists. split; [|split; [|split]].
  - unfold Menus.addNewNoteItems, addItem. simpl.
    rewrite <- app_assoc. reflexivity.
  - reflexivity.
  - reflexivity.
  - intros ev. unfold click, newNoteRun, Menus.newNoteHandler. simpl.
    repeat split;
      match goal with
      | |- context [newNote ?h ?a ?k ?d ?f ?l ?t] =>
          destruct (newNote h a k d f l t); reflexivity
      end.
Qed.

(* ===================================================================== *)
(** ** Further properties: what a contributor does to the menu *)
(* ===================================================================== *)

Lemma extend_extend (menu added : Menu) (r : Result Menu) :
  extend menu (extend added r) = extend (menu ++ added)%list r.
Proof. destruct r; simpl; [now rewrite app_assoc | reflexivity]. Qed.

Lemma extend_nil (r : Result Menu) : extend [] r = r.
Proof. now destruct r. Qed.

Lemma populateOpenInItems_loop_extend (rules : list OpenInSettings) :
  forall (menu : Menu) (location : option LatLng),
    Menus.populateOpenInItems_loop rules menu location
    = extend menu (Menus.populateOpenInItems_loop rules [] location).
Proof.
  induction rules as [|r rules IH]; intros menu location.
  - simpl. now rewrite app_nil_r.
  - simpl.
    destruct (negb (truthy (name r)) || negb (truthy (urlPattern r)));
      [apply IH|].
    destruct location as [p|]; simpl; [|reflexivity].
    rewrite IH. rewrite (IH (addItem [] _)). now rewrite extend_extend.
Qed.




(* ===================================================================== *)
(** ** Further properties: the open-in rules *)
(* ===================================================================== *)


(** X4. With a point, [addOpenWith] never fails: it adds "Open with
    default app" first and then the items of the valid rules in their
    order, all under the icon [map-pin] in the section [mapview]. *)
Theorem open_with_items :
  forall (menu : Menu) (p : LatLng) (settings : PluginSettings),
    exists added,
      Menus.addOpenWith menu (Some p) settings = Ok (menu ++ added)%list
      /\ map title added
         = "Open with default app"
           :: map (fun r => "Open in " ++ stringOf (name r))
                (filter isValidRule (openIn settings))
      /\ Forall (fun item => icon item = "map-pin"
                             /\ section item = "mapview") added.
Proof.
  intros menu p settings.
  unfold Menus.addOpenWith, Menus.populateOpenInItems.
  edestruct populateOpenInItems_loop_items as (added & -> & F).
  eexists (_ :: added). split; [|split].
  - unfold addItem. rewrite <- app_assoc. reflexivity.
  - simpl. f_equal. apply Forall2_map_eq.
    apply (Forall2_impl (openInItemOf p)); [|exact F].
    now intros r item (H & _).
  - constructor; [split; reflexivity|].
    clear -F. induction F as [|r item rs items (_ & Hi & Hs & _) _ IH];
      constructor; auto.
Qed.

Lemma populateOpenInItems_loop_app (rules1 rules2 : list OpenInSettings) :
  forall (menu : Menu) (location : option LatLng),
    Menus.populateOpenInItems_loop (rules1 ++ rules2) menu location
    = let! menu' := Menus.populateOpenInItems_loop rules1 menu location in
      Menus.populateOpenInItems_loop rules2 menu' location.
Proof.
  induction rules1 as [|r rules1 IH]; intros menu location; [reflexivity|].
  simpl.
  destruct (negb (truthy (name r)) || negb (truthy (urlPattern r)));
    [apply IH|].
  destruct location as [p|]; simpl; [apply IH | reflexivity].
Qed.

(** X5. Rule lists compose: the rules of a concatenated list are
    processed as the first list and then, on the menu that results,
    the second; a failure in the first list is the failure of the
    whole.  A rule with a missing or empty field can be inserted
    anywhere without changing the result. *)
Theorem populate_rule_lists_compose :
  forall (menu : Menu) (point : option LatLng)
         (settings : PluginSettings) (rules1 rules2 : list OpenInSettings),
    Menus.populateOpenInItems menu point
      (withRules settings (rules1 ++ rules2))
    = (let! menu' :=
         Menus.populateOpenInItems menu point (withRules settings rules1)
       in
       Menus.populateOpenInItems menu' point (withRules settings rules2))
    /\ forall r,
         isValidRule r = false ->
         Menus.populateOpenInItems menu point
           (withRules settings (rules1 ++ r :: rules2))
         = Menus.populateOpenInItems menu point
             (withRules settings (rules1 ++ rules2)).
Proof.
  intros. unfold Menus.populateOpenInItems. simpl. split.
  - apply populateOpenInItems_loop_app.
  - intros r Hr. rewrite !populateOpenInItems_loop_app. simpl.
    destruct (Menus.populateOpenInItems_loop rules1 menu point);
      [|reflexivity].
    simpl. rewrite valid_rule_test, Hr. reflexivity.
Qed.

Lemma populate_rule_lists_compose_witness :
  isValidRule {| name := Some "E"; urlPattern := None |} = false
  /\ Menus.populateOpenInItems [] (Some Sample.point_b)
       (withRules (Sample.settingsWith [])
          ([Sample.rule "A" "a:{x}"]
             ++ {| name := Some "E"; urlPattern := None |}
             :: [Sample.rule "B" "b:{y}"]))
     = Menus.populateOpenInItems [] (Some Sample.point_b)
         (withRules (Sample.settingsWith [])
            ([Sample.rule "A" "a:{x}"] ++ [Sample.rule "B" "b:{y}"])).
Proof.
  split; [reflexivity|].
  apply (proj2 (populate_rule_lists_compose [] (Some Sample.point_b)
                  (Sample.settingsWith []) [Sample.rule "A" "a:{x}"]
                  [Sample.rule "B" "b:{y}"])).
  reflexivity.
Defined.

(* ===================================================================== *)
(** ** Further properties: the click handlers *)
(* ===================================================================== *)

(** X6. When reading the clipboard fails, the handler of "Paste as
    geolocation" ends with that failure right after the read: the
    parse routine is not called and the editor is not touched. *)
Theorem paste_clipboard_failure :
  forall (e : Error) (format : string -> string)
         (create : App -> NewNoteType -> string -> string -> string ->
                   string -> Promise TFile)
         (editor : Editor) (suggestor : LocationSuggest)
         (urlConvertor : UrlConvertor) (ev : MouseEvent),
    clickTitled "Paste as geolocation"
      (Menus.addUrlConversionItems
         {| clipboard_readText := Rejected e;
            formatWithTemplates := format;
            newNote := create |}
         [] editor suggestor urlConvertor) ev
    = Some ([EClipboardReadText; EAwait], Throw e).
Proof.
  intros. unfold Menus.addUrlConversionItems.
  destruct (truthy (Some (getSelection editor)));
    destruct (hasMatchInLine urlConvertor editor); reflexivity.
Qed.

(** X7. A handler that awaits a collaborator makes that one call and
    ends as the promise settles: normally when it is fulfilled, with
    its reason when it is rejected.  "Show on map" passes the ctrl key
    as the new-pane flag and the shift key as the last argument; the
    two focus items pass the ctrl key and [true].  "Convert to
    geolocation" makes its call without awaiting it.  The gated items
    do not exist when their condition fails. *)
Theorem awaiting_handlers :
  forall (host : Host) (trimmedFileName : TFile -> string)
         (followQuery : TFile -> PluginSettings -> string)
         (g : LatLng) (file : TFile)
         (editorLine fromLine toLine numLocations : number)
         (plugin : MapViewPlugin) (settings : PluginSettings)
         (editor : Editor) (suggestor : LocationSuggest)
         (urlConvertor : UrlConvertor) (ev : MouseEvent),
    clickTitled "Show on map"
      (Menus.addShowOnMap [] (Some g) file editorLine plugin) ev
    = Some (awaitedCall
              (EOpenMapWithLocation g (ctrlKey ev) file editorLine
                 (shiftKey ev))
              (openMapWithLocation plugin g (ctrlKey ev) file editorLine
                 (shiftKey ev)))
    /\ clickTitled "Convert to geolocation (geosearch)"
         (Menus.addUrlConversionItems host [] editor suggestor urlConvertor)
         ev
       = (if truthy (Some (getSelection editor))
          then Some (awaitedCall (ESelectionToLink editor)
                       (selectionToLink suggestor editor))
          else None)
    /\ clickTitled "Convert to geolocation"
         (Menus.addUrlConversionItems host [] editor suggestor urlConvertor)
         ev
       = (if hasMatchInLine urlConvertor editor
          then Some ([EConvertUrlAtCursorToGeolocation editor], Ok tt)
          else None)
    /\ (clickTitled
            ("Focus " ++ toString numLocations ++ " "
               ++ (if gt numLocations (ofZ 1) then "geolocations"
                   else "geolocation")
               ++ " in Map View")
            (Menus.addFocusLinesInMapView [] file fromLine toLine
               numLocations plugin settings) ev
          = Some (awaitedCall
                    (EOpenMapWithState
                       {| query := "path:" ++ dquote ++ path file ++ dquote
                                     ++ " AND lines:" ++ toString fromLine
                                     ++ "-" ++ toString toLine |}
                       (ctrlKey ev) true)
                    (openMapWithState plugin
                       {| query := "path:" ++ dquote ++ path file ++ dquote
                                     ++ " AND lines:" ++ toString fromLine
                                     ++ "-" ++ toString toLine |}
                       (ctrlKey ev) true)))
    /\ clickTitled ("Focus '" ++ trimmedFileName file ++ "' in Map View")
         (Menus.addFocusNoteInMapView trimmedFileName followQuery [] file
            settings plugin) ev
       = Some (awaitedCall
                 (EOpenMapWithState {| query := followQuery file settings |}
                    (ctrlKey ev) true)
                 (openMapWithState plugin
                    {| query := followQuery file settings |}
                    (ctrlKey ev) true)).
Proof.
  intros. split; [|split; [|split; [|split]]].
  - simpl. unfold click, awaitedCall. simpl.
    now destruct (openMapWithLocation plugin g (ctrlKey ev) file editorLine
                    (shiftKey ev)) as [[]|].
  - unfold Menus.addUrlConversionItems.
    destruct (truthy (Some (getSelection editor)));
      destruct (hasMatchInLine urlConvertor editor); simpl;
      try reflexivity; unfold click, awaitedCall; simpl;
      now destruct (selectionToLink suggestor editor) as [[]|].
  - unfold Menus.addUrlConversionItems.
    destruct (truthy (Some (getSelection editor)));
      destruct (hasMatchInLine urlConvertor editor); reflexivity.
  - unfold clickTitled, itemTitled. simpl.
    rewrite String.eqb_refl. simpl. unfold click, awaitedCall. simpl.
    match goal with
    | |- context [openMapWithState ?p ?s ?c ?f] =>
        now destruct (openMapWithState p s c f) as [[]|]
    end.
  - unfold clickTitled, itemTitled. simpl.
    rewrite String.eqb_refl. simpl. unfold click, awaitedCall. simpl.
    now destruct (openMapWithState plugin
                    {| query := followQuery file settings |} (ctrlKey ev)
                    true) as [[]|].
Qed.

(* ===================================================================== *)
(** ** Further properties: the strings built from the point *)
(* ===================================================================== *)

Lemma substring_prefix (a r : string) : substring 0 (length a) (a ++ r) = a.
Proof.
  induction a as [|c a IH]; simpl; [apply substring_0_0 | now rewrite IH].
Qed.

Lemma dropChars_append_add (a r : string) (n : nat) :
  dropChars (length a + n) (a ++ r) = dropChars n r.
Proof. induction a; simpl; auto. Qed.

Lemma indexOf_separator (c : ascii) (a b : string) :
  noChar c a = true ->
  indexOf (String c EmptyString) (a ++ String c b) = Some (length a).
Proof.
  unfold noChar. induction a as [|d a IH]; simpl append; intros H.
  - apply indexOf_match, (prefix_app (String c EmptyString) b).
  - simpl in H. apply andb_true_iff in H as [Hd Ha].
    apply negb_true_iff, Ascii.eqb_neq in Hd.
    rewrite indexOf_cons by now apply prefix_head_neq.
    now rewrite (IH Ha).
Qed.

Lemma splitAtFirst_separator (c : ascii) (a b : string) :
  noChar c a = true ->
  splitAtFirst (String c EmptyString) (a ++ String c b) = Some (a, b).
Proof.
  intros H. unfold splitAtFirst, substringFromTo.
  rewrite (indexOf_separator _ _ _ H), Nat.sub_0_r, substring_prefix.
  rewrite dropChars_append_add. reflexivity.
Qed.

(** X8. The text [lat,lng] built from a point can be taken apart
    again: cut at its first comma, it gives back the string of [lat]
    and the string of [lng].  This is the location string that both
    new-note handlers hand to [newNote], and what follows [geo:] in
    the URI of "Open with default app". *)
Theorem location_string_splits :
  forall (host : Host) (p : LatLng) (mapContainer : MapContainer)
         (settings : PluginSettings) (app : App) (ev : MouseEvent),
    splitAtFirst "," (toString (lat p) ++ "," ++ toString (lng p))
    = Some (toString (lat p), toString (lng p))
    /\ option_map (fun run => newNoteLocationStrings (fst run))
         (clickTitled "New note here (inline)"
            (Menus.addNewNoteItems host [] (Some p) mapContainer settings
               app) ev)
       = Some [toString (lat p) ++ "," ++ toString (lng p)]
    /\ option_map (fun run => newNoteLocationStrings (fst run))
         (clickTitled "New note here (front matter)"
            (Menus.addNewNoteItems host [] (Some p) mapContainer settings
               app) ev)
       = Some [toString (lat p) ++ "," ++ toString (lng p)]
    /\ clickTitled "Open with default app"
         (Menus.addOpenWith [] (Some p) settings) ev
       = Some ([EOpen ("geo:" ++ toString (lat p) ++ ","
                         ++ toString (lng p))], Ok tt).
Proof.
  intros. split; [|split; [|split]].
  - apply splitAtFirst_separator, toString_plain.
  - simpl. unfold click, Menus.newNoteHandler. simpl.
    match goal with
    | |- context [newNote ?h ?a ?k ?d ?f ?l ?t] =>
        now destruct (newNote h a k d f l t)
    end.
  - simpl. unfold click, Menus.newNoteHandler. simpl.
    match goal with
    | |- context [newNote ?h ?a ?k ?d ?f ?l ?t] =>
        now destruct (newNote h a k d f l t)
    end.
  - unfold Menus.addOpenWith, Menus.populateOpenInItems.
    rewrite populateOpenInItems_loop_extend.
    edestruct (populateOpenInItems_loop_items (openIn settings) [] p)
      as (added & -> & _).
    reflexivity.
Qed.





Lemma single_rule_click (p : LatLng) (settings : PluginSettings)
    (n pattern : string) (ev : MouseEvent) :
  truthy (Some n) = true -> truthy (Some pattern) = true ->
  clickTitled ("Open in " ++ n)
    (Menus.populateOpenInItems [] (Some p)
       (withRules settings
          [{| name := Some n; urlPattern := Some pattern |}])) ev
  = Some ([EOpen (substituteFirst pattern (toString (lat p))
                    (toString (lng p)))], Ok tt).
Proof.
  intros Hn Hp. destruct n as [|c n]; [discriminate|].
  destruct pattern as [|d pattern]; [discriminate|].
  unfold Menus.populateOpenInItems, clickTitled, itemTitled. simpl.
  rewrite String.eqb_refl, Ascii.eqb_refl. simpl. unfold click. simpl.
  now rewrite fullUrl_substituteFirst.
Qed.

(** X10. A rule whose pattern holds neither [{x}] nor [{y}] opens the
    pattern itself, whatever the point. *)
Theorem open_in_url_without_tokens :
  forall (p : LatLng) (settings : PluginSettings) (n pattern : string)
         (ev : MouseEvent),
    truthy (Some n) = true -> truthy (Some pattern) = true ->
    indexOf "{x}" pattern = None -> indexOf "{y}" pattern = None ->
    clickTitled ("Open in " ++ n)
      (Menus.populateOpenInItems [] (Some p)
         (withRules settings
            [{| name := Some n; urlPattern := Some pattern |}])) ev
    = Some ([EOpen pattern], Ok tt).
Proof.
  intros p settings n pattern ev Hn Hp Hx Hy.
  rewrite single_rule_click by assumption.
  unfold substituteFirst. now rewrite Hx, Hy.
Qed.

Lemma open_in_url_without_tokens_witness :
  truthy (Some "Site") = true
  /\ truthy (Some "https://maps.example/") = true
  /\ indexOf "{x}" "https://maps.example/" = None
  /\ indexOf "{y}" "https://maps.example/" = None
  /\ clickTitled ("Open in " ++ "Site")
       (Menus.populateOpenInItems [] (Some Sample.point_a)
          (withRules (Sample.settingsWith [])
             [{| name := Some "Site";
                 urlPattern := Some "https://maps.example/" |}]))
       Sample.plainClick
     = Some ([EOpen "https://maps.example/"], Ok tt).
Proof.
  repeat (split; [reflexivity|]).
  apply open_in_url_without_tokens; reflexivity.
Defined.

(** X11. When a pattern reads [a{x}b{y}c] and these are the places
    where [indexOf] finds the two tokens, the URL opened is
    [a], the string of [lat], [b], the string of [lng], [c]; with the
    tokens in the other order, [a{y}b{x}c], it is [a], the string of
    [lng], [b], the string of [lat], [c]. *)
Theorem open_in_url_by_occurrence :
  forall (p : LatLng) (settings : PluginSettings) (n a b c : string)
         (ev : MouseEvent),
    truthy (Some n) = true ->
    (indexOf "{x}" (a ++ "{x}" ++ b ++ "{y}" ++ c) = Some (length a) ->
     indexOf "{y}" (a ++ "{x}" ++ b ++ "{y}" ++ c)
     = Some (length (a ++ "{x}" ++ b)) ->
     clickTitled ("Open in " ++ n)
       (Menus.populateOpenInItems [] (Some p)
          (withRules settings
             [{| name := Some n;
                 urlPattern := Some (a ++ "{x}" ++ b ++ "{y}" ++ c) |}])) ev
     = Some ([EOpen (a ++ toString (lat p) ++ b ++ toString (lng p) ++ c)],
             Ok tt))
    /\ (indexOf "{y}" (a ++ "{y}" ++ b ++ "{x}" ++ c) = Some (length a) ->
        indexOf "{x}" (a ++ "{y}" ++ b ++ "{x}" ++ c)
        = Some (length (a ++ "{y}" ++ b)) ->
        clickTitled ("Open in " ++ n)
          (Menus.populateOpenInItems [] (Some p)
             (withRules settings
                [{| name := Some n;
                    urlPattern := Some (a ++ "{y}" ++ b ++ "{x}" ++ c) |}]))
          ev
        = Some ([EOpen (a ++ toString (lng p) ++ b ++ toString (lat p)
                          ++ c)], Ok tt)).
Proof.
  intros p settings n a b c ev Hn.
  assert (Hne : forall t r, truthy (Some (a ++ String "{" t ++ r)) = true)
    by (intros; destruct a; reflexivity).
  split; intros H1 H2.
  - rewrite single_rule_click by (exact Hn || apply (Hne "x}")).
    now rewrite substituteFirst_x_then_y.
  - rewrite single_rule_click by (exact Hn || apply (Hne "y}")).
    now rewrite substituteFirst_y_then_x.
Qed.

Lemma open_in_url_by_occurrence_witness :
  truthy (Some "OSM") = true
  /\ indexOf "{x}" ("https://osm.example/?mlat=" ++ "{x}" ++ "&mlon="
                      ++ "{y}" ++ "#map=16/{x}/{y}")
     = Some (length "https://osm.example/?mlat=")
  /\ indexOf "{y}" ("https://osm.example/?mlat=" ++ "{x}" ++ "&mlon="
                      ++ "{y}" ++ "#map=16/{x}/{y}")
     = Some (length ("https://osm.example/?mlat=" ++ "{x}" ++ "&mlon="))
  /\ clickTitled ("Open in " ++ "OSM")
       (Menus.populateOpenInItems [] (Some Sample.point_a)
          (withRules (Sample.settingsWith [])
             [{| name := Some "OSM";
                 urlPattern :=
                   Some ("https://osm.example/?mlat=" ++ "{x}" ++ "&mlon="
                           ++ "{y}" ++ "#map=16/{x}/{y}") |}]))
       Sample.plainClick
     = Some ([EOpen ("https://osm.example/?mlat="
                       ++ toString (lat Sample.point_a) ++ "&mlon="
                       ++ toString (lng Sample.point_a)
                       ++ "#map=16/{x}/{y}")], Ok tt).
Proof.
  repeat (split; [reflexivity|]).
  apply (proj1 (open_in_url_by_occurrence Sample.point_a
                  (Sample.settingsWith []) "OSM"
                  "https://osm.example/?mlat=" "&mlon=" "#map=16/{x}/{y}"
                  Sample.plainClick eq_refl)); reflexivity.
Defined.
